(** * chatlas: the Anthropic provider adapter

    A shallow embedding of [chatlas/_anthropic.py] (class [AnthropicProvider])
    and the properties of its request construction, streaming merge and
    response canonicalization, followed by the TypedDict generator of
    [scripts/_utils.py].

    Python values are modelled by [pyval]; dictionaries used as maps are
    stdpp [gmap]s keyed by strings; exceptions are an explicit [result]
    type; the warnings emitted through [warnings.warn] are collected in a
    list next to the outcome. *)

From Stdlib Require Import ZArith Ascii String DecimalString.
From stdpp Require Import gmap strings list fin_maps.

Set Warnings "-register-all,-clear-no-such-hyp".
Open Scope string_scope.
Open Scope list_scope.

(** ** Python values and exceptions *)

(** The values that travel through tool inputs, tool arguments and raw
    request overrides: what [json.loads] can return. *)
Inductive pyval :=
| PyNone
| PyBool (b : bool)
| PyInt (z : Z)
| PyStr (s : string)
| PyList (l : list pyval)
| PyDict (d : gmap string pyval).

(** [isinstance(v, str)] *)
Definition isinstance_str (v : pyval) : bool :=
  match v with PyStr _ => true | _ => false end.

(** [isinstance(v, dict)] *)
Definition isinstance_dict (v : pyval) : bool :=
  match v with PyDict _ => true | _ => false end.

(** The exceptions the adapter raises itself ([ValueError],
    [NotImplementedError]) and those the Python runtime raises on its
    behalf ([AttributeError] on a missing attribute, [IndexError] on a list
    index out of range, [KeyError] on a missing dictionary key). *)
Inductive exn :=
| ValueError (msg : string)
| NotImplementedError (msg : string)
| AttributeError (attr : string)
| IndexError
| KeyError (key : string).

Inductive result (A : Type) :=
| Ok (a : A)
| Raise (e : exn).
Arguments Ok {A} a.
Arguments Raise {A} e.

Definition rbind {A B} (r : result A) (k : A -> result B) : result B :=
  match r with
  | Ok a => k a
  | Raise e => Raise e
  end.

Declare Scope result_scope.
Delimit Scope result_scope with result.
Notation "x <- r ;; k" := (rbind r (fun x => k))
  (at level 100, r at next level, right associativity) : result_scope.
Open Scope result_scope.

Definition is_ok {A} (r : result A) : bool :=
  match r with Ok _ => true | Raise _ => false end.

(** A [for] loop whose body may raise: the state is threaded through the
    elements in order and the first exception ends the loop. *)
Fixpoint for_each {A S} (body : S -> A -> result S) (s : S) (l : list A)
  : result S :=
  match l with
  | [] => Ok s
  | a :: l' => s' <- body s a ;; for_each body s' l'
  end.

(** A list comprehension [[f(x) for x in l]] whose [f] may raise. *)
Fixpoint comprehension {A B} (f : A -> result B) (l : list A)
  : result (list B) :=
  match l with
  | [] => Ok []
  | a :: l' => b <- f a ;; bs <- comprehension f l' ;; Ok (b :: bs)
  end.

(** ** The canonical conversation model *)

(** Modelled from the spec: the [Content] classes of [chatlas/_content.py],
    a tagged union of the six content kinds with the attributes the adapter
    reads ([text]; [content_type], [data]; [url]; [value]; [id], [name],
    [arguments]; [id], [value], [error]). *)
Inductive Content :=
| ContentText (text : string)
| ContentImageInline (content_type : string) (data : option string)
| ContentImageRemote (url : string)
| ContentJson (value : pyval)
| ContentToolRequest (id : string) (name : string) (arguments : pyval)
| ContentToolResult (id : string) (value : pyval) (error : option string).

(** ** Vendor wire shapes *)

Record ImageSource := {
  source_type : string;
  media_type : string;
  source_data : string
}.

(** A vendor content block.  The response side ([TextBlock],
    [ToolUseBlock]) and the request side ([TextBlockParam],
    [ImageBlockParam], [ToolUseBlockParam], [ToolResultBlockParam]) share
    the wire shape, tagged by [type]. *)
Inductive ContentBlock :=
| TextBlock (text : string)
| ImageBlock (source : ImageSource)
| ToolUseBlock (id : string) (name : string) (input : pyval)
| ToolResultBlock (tool_use_id : string) (content : pyval) (is_error : bool).

(** The [type] tag of a block. *)
Definition block_type (b : ContentBlock) : string :=
  match b with
  | TextBlock _ => "text"
  | ImageBlock _ => "image"
  | ToolUseBlock _ _ _ => "tool_use"
  | ToolResultBlock _ _ _ => "tool_result"
  end.

Record Usage := {
  input_tokens : Z;
  output_tokens : Z
}.

(** The vendor completion ([anthropic.types.Message]). *)
Record Message := {
  msg_id : string;
  msg_model : string;
  msg_role : string;
  content : list ContentBlock;
  stop_reason : option string;
  stop_sequence : option string;
  usage : Usage
}.

(** Modelled from the spec: the [Turn] of [chatlas/_turn.py] as its
    constructor is called, [Turn(role, contents, json=..., tokens=...)]. *)
Record Turn := {
  role : string;
  contents : list Content;
  json : option Message;
  tokens : option (Z * Z)
}.

(** ** Response canonicalization: [_as_turn] *)

(** One iteration of the loop over [completion.content]. *)
Definition as_turn_step (has_data_model : bool) (contents : list Content)
    (block : ContentBlock) : result (list Content) :=
  match block with
  | TextBlock text => Ok (contents ++ [ContentText text])
  | ToolUseBlock id name input =>
      if has_data_model && String.eqb name "_structured_tool_call" then
        match input with
        | PyDict d =>
            match d !! "data" with
            | Some v => Ok (contents ++ [ContentJson v])
            | None =>
                Raise (ValueError
                  "Expected data extraction tool to return a 'data' field.")
            end
        | _ =>
            Raise (ValueError
              "Expected data extraction tool to return a dictionary.")
        end
      else Ok (contents ++ [ContentToolRequest id name input])
  | _ => Ok contents
  end.

Definition as_turn_contents (has_data_model : bool) (blocks : list ContentBlock)
  : result (list Content) :=
  for_each (as_turn_step has_data_model) [] blocks.

(** [tokens_log], the token-accounting collaborator, is handed the same
    pair that is stored in the turn. *)
Definition _as_turn (completion : Message) (has_data_model : bool)
  : result Turn :=
  contents <- as_turn_contents has_data_model (content completion) ;;
  let tokens := (input_tokens (usage completion),
                 output_tokens (usage completion)) in
  Ok {| role := "assistant";
        contents := contents;
        json := Some completion;
        tokens := Some tokens |}.

Definition stream_turn (completion : Message) (has_data_model : bool)
  : result Turn :=
  _as_turn completion has_data_model.

Definition value_turn (completion : Message) (has_data_model : bool)
  : result Turn :=
  _as_turn completion has_data_model.

(** ** Stream events *)

Inductive Delta :=
| TextDelta (text : string)
| InputJSONDelta (partial_json : string).

(** [RawMessageStreamEvent]: the six vendor event shapes. *)
Inductive Chunk :=
| MessageStartEvent (message : Message)
| ContentBlockStartEvent (index : nat) (content_block : ContentBlock)
| ContentBlockDeltaEvent (index : nat) (delta : Delta)
| ContentBlockStopEvent (index : nat)
| MessageDeltaEvent (delta_stop_reason : option string)
    (delta_stop_sequence : option string) (usage_output_tokens : Z)
| MessageStopEvent.

Definition chunk_type (c : Chunk) : string :=
  match c with
  | MessageStartEvent _ => "message_start"
  | ContentBlockStartEvent _ _ => "content_block_start"
  | ContentBlockDeltaEvent _ _ => "content_block_delta"
  | ContentBlockStopEvent _ => "content_block_stop"
  | MessageDeltaEvent _ _ _ => "message_delta"
  | MessageStopEvent => "message_stop"
  end.

(** Attribute access on the accumulator, which is [None] before the first
    event. *)
Definition deref (completion : option Message) (attr : string)
  : result Message :=
  match completion with
  | Some m => Ok m
  | None => Raise (AttributeError attr)
  end.

(** [l[i]] *)
Definition getitem {A} (l : list A) (i : nat) : result A :=
  match l !! i with
  | Some a => Ok a
  | None => Raise IndexError
  end.

Definition with_content (m : Message) (c : list ContentBlock) : Message :=
  {| msg_id := msg_id m; msg_model := msg_model m; msg_role := msg_role m;
     content := c;
     stop_reason := stop_reason m; stop_sequence := stop_sequence m;
     usage := usage m |}.

(** [x or "{}"] on a string. *)
Definition or_empty_object (x : string) : string :=
  if String.eqb x "" then "{}" else x.

(** ** Request-side shapes *)

Record MessageParam := {
  mp_role : string;
  mp_content : list ContentBlock
}.

(** [schema["function"]] of an OpenAI-style tool schema: [name] is
    required, [description] and [parameters] are optional keys. *)
Record FunctionDefinition := {
  fn_name : string;
  fn_description : option string;
  fn_parameters : option (gmap string pyval)
}.

Record ChatCompletionToolParam := {
  function : FunctionDefinition
}.

(** Modelled from the spec: the [Tool] of [chatlas/_tools.py], of which the
    adapter reads [name] and [schema]. *)
Record Tool := {
  tool_name : string;
  schema : ChatCompletionToolParam
}.

Record InputSchema := {
  is_type : string;
  is_properties : option pyval
}.

(** The vendor's tool schema ([ToolParam]). *)
Record ToolParam := {
  tp_name : string;
  tp_input_schema : InputSchema;
  tp_description : option string
}.

(** The values of the request dictionary ([SubmitInputArgs]). *)
Inductive ArgVal :=
| ArgBool (b : bool)
| ArgInt (n : Z)
| ArgStr (s : string)
| ArgMessages (messages : list MessageParam)
| ArgTools (tools : list ToolParam)
| ArgToolChoice (type : string) (name : string)
| ArgRaw (v : pyval).

Record AnthropicProvider := {
  _model : string;
  _max_tokens : Z
}.

(** Warnings emitted so far, next to the outcome. *)
Definition W (A : Type) : Type := list string * result A.

Definition wret {A} (a : A) : W A := ([], Ok a).

Definition wlift {A} (r : result A) : W A := ([], r).

Definition warn (msg : string) : W unit := ([msg], Ok tt).

Definition wbind {A B} (m : W A) (k : A -> W B) : W B :=
  match m with
  | (w, Ok a) => let (w', r) := k a in (w ++ w', r)
  | (w, Raise e) => (w, Raise e)
  end.

Notation "x <~ m ;; k" := (wbind m (fun x => k))
  (at level 100, m at next level, right associativity) : result_scope.

(** Modelled from the spec: [Tool(_structured_tool_call)], the pseudo-tool
    synthesized for extraction, whose constructor is in [chatlas/_tools.py]:
    it is named after the no-op function and described by its docstring;
    its parameters are replaced right after. *)
Definition structured_tool_call_Tool : Tool :=
  {| tool_name := "_structured_tool_call";
     schema := {| function :=
       {| fn_name := "_structured_tool_call";
          fn_description := Some "Extract structured data";
          fn_parameters := Some ∅ |} |} |}.

(** [tool.schema["function"]["parameters"] = params] *)
Definition set_parameters (t : Tool) (params : gmap string pyval) : Tool :=
  {| tool_name := tool_name t;
     schema := {| function :=
       {| fn_name := fn_name (function (schema t));
          fn_description := fn_description (function (schema t));
          fn_parameters := Some params |} |} |}.

Definition _anthropic_tool_schema (schema : ChatCompletionToolParam)
  : result ToolParam :=
  let fn := function schema in
  let name := fn_name fn in
  properties <-
    match fn_parameters fn with
    | Some parameters =>
        match parameters !! "properties" with
        | Some p => Ok (Some p)
        | None => Raise (KeyError "properties")
        end
    | None => Ok None
    end ;;
  Ok {| tp_name := name;
        tp_input_schema := {| is_type := "object";
                              is_properties := properties |};
        tp_description := fn_description fn |}.

(** ** The streaming protocol, as the vendor sends it

    A second description of a streamed completion, written from the
    protocol and not from the merge: a message skeleton, then each content
    block in turn (its start event, its deltas, its stop event, all at the
    block's index), then the closing message delta and the stop event.
    This is the arrival order the merge is specified for. *)

(** The deltas of one content block: the pieces of a text, or the pieces
    of the partial JSON of a tool call's input. *)

Inductive BlockStream :=
| TextStream (pieces : list string)
| ToolUseStream (id : string) (name : string) (pieces : list string).

(** The skeleton a block starts from: empty text, or an empty input
    object. *)
Definition block_skeleton (b : BlockStream) : ContentBlock :=
  match b with
  | TextStream _ => TextBlock EmptyString
  | ToolUseStream id name _ => ToolUseBlock id name (PyDict ∅)
  end.

Definition block_deltas (b : BlockStream) : list Delta :=
  match b with
  | TextStream pieces => map TextDelta pieces
  | ToolUseStream _ _ pieces => map InputJSONDelta pieces
  end.

Definition block_events (index : nat) (b : BlockStream) : list Chunk :=
  ContentBlockStartEvent index (block_skeleton b)
    :: map (ContentBlockDeltaEvent index) (block_deltas b)
    ++ [ContentBlockStopEvent index].

Fixpoint blocks_events (index : nat) (bs : list BlockStream) : list Chunk :=
  match bs with
  | [] => []
  | b :: bs' => block_events index b ++ blocks_events (S index) bs'
  end.

Record StreamEnd := {
  end_stop_reason : option string;
  end_stop_sequence : option string;
  end_output_tokens : Z
}.

(** The events of one streamed completion, in arrival order. *)
Definition stream_events (skeleton : Message) (bs : list BlockStream)
    (fin : StreamEnd) : list Chunk :=
  MessageStartEvent skeleton
    :: blocks_events 0 bs
    ++ [MessageDeltaEvent (end_stop_reason fin) (end_stop_sequence fin)
          (end_output_tokens fin);
        MessageStopEvent].

(** The pieces of a block, concatenated. *)
Definition join (pieces : list string) : string :=
  foldr String.append EmptyString pieces.

(** ** Vocabulary of the statements *)

(** What [completion.content] may hold at run time: a response object of
    the vendor SDK, read through its attributes, or a request-side
    dictionary as [_as_content_block] builds it, which has keys and no
    attributes. *)
Inductive BlockValue :=
| BlockObject (b : ContentBlock)
| BlockDict (b : ContentBlock).

(** One iteration of the loop of [_as_turn] on such a value.  The loop
    starts by reading [content.type]: on a dictionary this attribute
    access raises. *)
Definition as_turn_step_on (has_data_model : bool) (contents : list Content)
    (v : BlockValue) : result (list Content) :=
  match v with
  | BlockObject b => as_turn_step has_data_model contents b
  | BlockDict _ => Raise (AttributeError "type")
  end.

Definition as_turn_contents_on (has_data_model : bool) (vs : list BlockValue)
  : result (list Content) :=
  for_each (as_turn_step_on has_data_model) [] vs.

(** The content kind the vendor does not take. *)
Definition is_remote_image (c : Content) : bool :=
  match c with ContentImageRemote _ => true | _ => false end.

(** The blocks whose type is [text] or [tool_use]. *)
Definition emits_content (b : ContentBlock) : bool :=
  match b with
  | TextBlock _ | ToolUseBlock _ _ _ => true
  | _ => false
  end.


(** ** Stream text: [stream_text] *)

Definition stream_text (chunk : Chunk) : option string :=
  match chunk with
  | ContentBlockDeltaEvent _ (TextDelta text) => Some text
  | _ => None
  end.

(** ** More vocabulary: blocks, turns and requests *)

(** The text of a [text] block. *)
Definition block_text (b : ContentBlock) : option string :=
  match b with TextBlock t => Some t | _ => None end.

(** The text of a [ContentText] item. *)
Definition content_text (c : Content) : option string :=
  match c with ContentText t => Some t | _ => None end.

(** A delta fits a block when the block has the attribute the delta
    extends: [text] for a text delta, [input] for a partial-JSON delta. *)
Definition delta_fits (d : Delta) (b : ContentBlock) : bool :=
  match d, b with
  | TextDelta _, TextBlock _ => true
  | InputJSONDelta _, ToolUseBlock _ _ _ => true
  | _, _ => false
  end.

(** The type tag a [content_block_start] event adds to the content
    list. *)
Definition started_types (chunk : Chunk) : list string :=
  match chunk with
  | ContentBlockStartEvent _ b => [block_type b]
  | _ => []
  end.

Definition is_message_start (chunk : Chunk) : bool :=
  match chunk with MessageStartEvent _ => true | _ => false end.

Definition is_message_stop (chunk : Chunk) : bool :=
  match chunk with MessageStopEvent => true | _ => false end.

(** A [tool_use] block that is read as the extraction result. *)
Definition is_extraction_call (has_data_model : bool) (b : ContentBlock)
  : bool :=
  match b with
  | ToolUseBlock _ name _ =>
      has_data_model && String.eqb name "_structured_tool_call"
  | _ => false
  end.

(** The value under [data] of a block's input, when the input is a
    mapping that has the key. *)
Definition extraction_data (b : ContentBlock) : option pyval :=
  match b with
  | ToolUseBlock _ _ (PyDict d) => d !! "data"
  | _ => None
  end.

(** The content item a block stands for. *)
Definition canonical_content (has_data_model : bool) (b : ContentBlock)
  : option Content :=
  match b with
  | TextBlock t => Some (ContentText t)
  | ToolUseBlock id name input =>
      if is_extraction_call has_data_model b
      then ContentJson <$> extraction_data b
      else Some (ContentToolRequest id name input)
  | _ => None
  end.

(** An extraction call without a usable [data] value. *)
Definition failed_extraction (has_data_model : bool) (b : ContentBlock)
  : bool :=
  is_extraction_call has_data_model b &&
  match extraction_data b with Some _ => false | None => true end.

(** The [type] of the vendor block of a content item. *)
Definition vendor_type (c : Content) : string :=
  match c with
  | ContentText _ | ContentJson _ => "text"
  | ContentImageInline _ _ | ContentImageRemote _ => "image"
  | ContentToolRequest _ _ _ => "tool_use"
  | ContentToolResult _ _ _ => "tool_result"
  end.

Definition is_system (t : Turn) : bool := String.eqb (role t) "system".

(** A turn the mapping accepts: a system turn, whatever it holds, or a
    user or assistant turn without a remote image. *)
Definition mappable (t : Turn) : bool :=
  is_system t ||
  ((String.eqb (role t) "user" || String.eqb (role t) "assistant") &&
   negb (existsb is_remote_image (contents t))).

(** A tool schema whose parameters, if any, hold the key
    [properties]. *)
Definition has_properties (s : ChatCompletionToolParam) : bool :=
  match fn_parameters (function s) with
  | Some parameters =>
      match parameters !! "properties" with Some _ => true | None => false end
  | None => true
  end.

(** [fn] with its parameters replaced. *)
Definition with_parameters (fn : FunctionDefinition)
    (parameters : gmap string pyval) : ChatCompletionToolParam :=
  {| function := {| fn_name := fn_name fn;
                    fn_description := fn_description fn;
                    fn_parameters := Some parameters |} |}.

(** The vendor schema of the extraction pseudo-tool for a data model with
    the given parameter schema. *)
Definition extraction_tool_param (data_schema : pyval) : ToolParam :=
  {| tp_name := "_structured_tool_call";
     tp_input_schema :=
       {| is_type := "object";
          is_properties := Some (PyDict {[ "data" := data_schema ]}) |};
     tp_description := Some "Extract structured data" |}.

(** The keys every request carries. *)
Definition derived_keys : gset string :=
  {[ "stream"; "messages"; "model"; "max_tokens"; "tools" ]}.

Definition starts_with_system (turns : list Turn) : bool :=
  match turns with
  | t0 :: _ => is_system t0
  | [] => false
  end.

(** ** Client construction: [__init__]

    The argument dictionaries handed to the vendor clients.  A credential
    that is [None] is passed as [None]. *)

Definition optional_str (s : option string) : pyval :=
  match s with Some v => PyStr v | None => PyNone end.

(** [AnthropicProvider.__init__]: [kwargs_full], given to both [Anthropic]
    and [AsyncAnthropic]. *)
Definition anthropic_client_args (api_key : option string)
    (kwargs : option (gmap string pyval)) : gmap string pyval :=
  default ∅ kwargs ∪ {[ "api_key" := optional_str api_key ]}.

(** [AnthropicBedrockProvider.__init__]: [kwargs_full], given to both
    [AnthropicBedrock] and [AsyncAnthropicBedrock]. *)
Definition bedrock_client_args (aws_secret_key aws_access_key aws_region
    aws_profile aws_session_token base_url : option string)
    (kwargs : option (gmap string pyval)) : gmap string pyval :=
  default ∅ kwargs ∪
  {[ "aws_secret_key" := optional_str aws_secret_key;
     "aws_access_key" := optional_str aws_access_key;
     "aws_region" := optional_str aws_region;
     "aws_profile" := optional_str aws_profile;
     "aws_session_token" := optional_str aws_session_token;
     "base_url" := optional_str base_url ]}.

Definition bedrock_keys : gset string :=
  {[ "aws_secret_key"; "aws_access_key"; "aws_region"; "aws_profile";
     "aws_session_token"; "base_url" ]}.

(** ** The TypedDict generator: [scripts/_utils.py]

    The generator reads callables through [inspect]: a callable is its
    name, the parameters of its signature in order (their names are
    distinct) and its type hints.  The type objects and [get_type_string],
    which renders one with the imports it needs, are parameters. *)

Inductive ParameterKind :=
| POSITIONAL_ONLY
| POSITIONAL_OR_KEYWORD
| VAR_POSITIONAL
| KEYWORD_ONLY
| VAR_KEYWORD.

(** [param.default], as far as the generator looks: a [bool], or anything
    else (no default at all included). *)
Inductive ParameterDefault :=
| DefaultBool (b : bool)
| DefaultOther.

(** [param_annotation] is [str(param.annotation)]. *)
Record SigParameter := {
  param_name : string;
  param_kind : ParameterKind;
  param_default : ParameterDefault;
  param_annotation : string
}.

Definition newline : string := String "010"%char EmptyString.

(** [needle in hay] on strings. *)
Fixpoint contains (needle hay : string) : bool :=
  String.prefix needle hay ||
  match hay with
  | EmptyString => false
  | String _ rest => contains needle rest
  end.

(** [str(n)] for a length. *)
Definition str_of_nat (n : nat) : string :=
  NilEmpty.string_of_uint (Nat.to_uint n).

Definition keepable_kind (k : ParameterKind) : bool :=
  match k with
  | KEYWORD_ONLY | POSITIONAL_OR_KEYWORD => true
  | _ => false
  end.

Section TypedDictGenerator.

Variable PyType : Type.
Variable Any : PyType.
Variable get_type_string : PyType -> string * gset string.

Record Callable := {
  callable_name : string;
  parameters : list SigParameter;
  type_hints : gmap string PyType
}.

(** The [annotations] dictionary of [create_typeddict_for_method]: the
    kept parameters with their type hints, in signature order. *)
Definition kept_annotations (method : Callable)
    (excluded_fields : option (gset string)) : list (string * PyType) :=
  omap (fun param =>
          if keepable_kind (param_kind param) then
            if bool_decide (param_name param ∈ default ∅ excluded_fields)
            then None
            else Some (param_name param,
                       default Any (type_hints method !! param_name param))
          else None)
       (parameters method).

Definition create_typeddict_for_method (method : Callable)
    (class_name : string) (excluded_fields : option (gset string))
  : string * gset string :=
  let annotations := kept_annotations method excluded_fields in
  let code := "class " +:+ class_name +:+ "(TypedDict, total=False):"
              +:+ newline in
  fold_left
    (fun '(code, imports) '(param_name, param_type) =>
       let '(type_str, new_imports) := get_type_string param_type in
       (code +:+ "    " +:+ param_name +:+ ": " +:+ type_str +:+ newline,
        imports ∪ new_imports))
    annotations (code, ∅).

(** The field lines of a class body, and the imports they need. *)
Definition field_lines (annotations : list (string * PyType)) : string :=
  foldr (fun '(param_name, param_type) rest =>
           ("    " +:+ param_name +:+ ": "
            +:+ (get_type_string param_type).1 +:+ newline) +:+ rest)
        EmptyString annotations.

Definition field_imports (annotations : list (string * PyType))
  : gset string :=
  foldr (fun '(_, param_type) rest =>
           (get_type_string param_type).2 ∪ rest)
        ∅ annotations.

(** The [default] computed for a [stream] parameter: its default when that
    is a [bool], else what its annotation spells, else [None]. *)
Definition stream_flag (stream : SigParameter) : option bool :=
  match param_default stream with
  | DefaultBool b => Some b
  | DefaultOther =>
      if contains "Literal[True]" (param_annotation stream) then Some true
      else if contains "Literal[False]" (param_annotation stream)
      then Some false
      else None
  end.

(** One iteration of the loop over the overloads; the state is
    [class_name], [typeddicts] and [all_imports]. *)
Definition overload_step (excluded_fields : option (gset string))
    (st : string * list string * gset string) (overload_impl : Callable)
  : string * list string * gset string :=
  let '(class_name, typeddicts, all_imports) := st in
  match find (fun p => String.eqb (param_name p) "stream")
          (parameters overload_impl) with
  | None => st
  | Some stream =>
      match stream_flag stream with
      | None => st
      | Some default =>
          let class_name :=
            if default then class_name +:+ "Stream" else class_name in
          let '(typeddict, imports) :=
            create_typeddict_for_method overload_impl class_name
              excluded_fields in
          (class_name, typeddicts ++ [typeddict], all_imports ∪ imports)
      end
  end.

(** [overloads] is [get_overloads(method)]. *)
Definition create_typeddicts_for_overloaded_method (method_name : string)
    (overloads : list Callable) (class_name : string)
    (excluded_fields : option (gset string))
  : result (string * gset string) :=
  match overloads with
  | [] => Raise (ValueError ("Method " +:+ method_name +:+ " has no overloads"))
  | _ :: _ =>
      let '(_, typeddicts, all_imports) :=
        fold_left (overload_step excluded_fields) overloads
          (class_name, [], ∅) in
      if negb (length typeddicts =? 2)%nat then
        Raise (ValueError
          ("Expected to find 2 stream=True/False overloads for method "
           +:+ method_name +:+ " but found "
           +:+ str_of_nat (length typeddicts)))
      else Ok (String.concat (newline +:+ newline) typeddicts, all_imports)
  end.

(** The stream flag of an overload, if it has a [stream] parameter with
    one. *)
Definition overload_flag (overload_impl : Callable) : option bool :=
  find (fun p => String.eqb (param_name p) "stream") (parameters overload_impl)
    ≫= stream_flag.

Definition suffixed (class_name : string) (flag : bool) : string :=
  if flag then class_name +:+ "Stream" else class_name.

(** The overloads that have a stream flag, each with its flag, in
    order. *)
Definition flagged_overloads (overloads : list Callable)
  : list (Callable * bool) :=
  omap (fun o => match overload_flag o with
                 | Some flag => Some (o, flag)
                 | None => None
                 end) overloads.

End TypedDictGenerator.

Arguments callable_name {PyType} _.
Arguments parameters {PyType} _.
Arguments type_hints {PyType} _.
Arguments overload_flag {PyType} _.
Arguments flagged_overloads {PyType} _.

(** ** Concrete collaborators for the examples

    The adapter is parametric in [json.loads], [get_final_value],
    [basemodel_to_param_schema] and [Turn.text].  The instances below are
    used to run the model on concrete inputs. *)

Definition dquote : ascii := "034"%char.
Definition backslash : ascii := "092"%char.

Definition is_ws (c : ascii) : bool :=
  Ascii.eqb c " "%char || Ascii.eqb c "009"%char ||
  Ascii.eqb c "010"%char || Ascii.eqb c "013"%char.

Definition is_digit (c : ascii) : bool :=
  (48 <=? nat_of_ascii c)%nat && (nat_of_ascii c <=? 57)%nat.

Fixpoint skip_ws (s : list ascii) : list ascii :=
  match s with
  | c :: s' => if is_ws c then skip_ws s' else s
  | [] => []
  end.

Fixpoint strip_prefix (p s : list ascii) : option (list ascii) :=
  match p, s with
  | [], _ => Some s
  | a :: p', b :: s' => if Ascii.eqb a b then strip_prefix p' s' else None
  | _ :: _, [] => None
  end.

Fixpoint parse_digits (acc : Z) (s : list ascii) : Z * list ascii :=
  match s with
  | c :: s' =>
      if is_digit c
      then parse_digits (10 * acc + Z.of_nat (nat_of_ascii c - 48)) s'
      else (acc, s)
  | [] => (acc, [])
  end.

(** The characters of a string literal up to its closing quote; escape
    sequences are outside the subset. *)
Fixpoint parse_string_body (s : list ascii) : option (string * list ascii) :=
  match s with
  | [] => None
  | c :: r =>
      if Ascii.eqb c dquote then Some (EmptyString, r)
      else if Ascii.eqb c backslash then None
      else match parse_string_body r with
           | Some (t, r') => Some (String c t, r')
           | None => None
           end
  end.

Definition parse_number (s : list ascii) : option (pyval * list ascii) :=
  match s with
  | c :: r =>
      if Ascii.eqb c "-"%char then
        match r with
        | d :: _ =>
            if is_digit d
            then let (n, r') := parse_digits 0 r in Some (PyInt (- n), r')
            else None
        | [] => None
        end
      else if is_digit c
      then let (n, r') := parse_digits 0 s in Some (PyInt n, r')
      else None
  | [] => None
  end.

Fixpoint parse_value (fuel : nat) (s : list ascii) {struct fuel}
  : option (pyval * list ascii) :=
  match fuel with
  | O => None
  | S fuel =>
      let s := skip_ws s in
      match strip_prefix (list_ascii_of_string "null") s with
      | Some r => Some (PyNone, r)
      | None =>
      match strip_prefix (list_ascii_of_string "true") s with
      | Some r => Some (PyBool true, r)
      | None =>
      match strip_prefix (list_ascii_of_string "false") s with
      | Some r => Some (PyBool false, r)
      | None =>
      match s with
      | c :: r =>
          if Ascii.eqb c dquote then
            match parse_string_body r with
            | Some (t, r') => Some (PyStr t, r')
            | None => None
            end
          else if Ascii.eqb c "["%char then
            match skip_ws r with
            | c' :: r' =>
                if Ascii.eqb c' "]"%char then Some (PyList [], r')
                else match parse_elements fuel r with
                     | Some (vs, r'') => Some (PyList vs, r'')
                     | None => None
                     end
            | [] => None
            end
          else if Ascii.eqb c "{"%char then
            match skip_ws r with
            | c' :: r' =>
                if Ascii.eqb c' "}"%char then Some (PyDict ∅, r')
                else match parse_members fuel r with
                     | Some (d, r'') => Some (PyDict d, r'')
                     | None => None
                     end
            | [] => None
            end
          else parse_number s
      | [] => None
      end end end end
  end
with parse_elements (fuel : nat) (s : list ascii) {struct fuel}
  : option (list pyval * list ascii) :=
  match fuel with
  | O => None
  | S fuel =>
      match parse_value fuel s with
      | Some (v, r) =>
          match skip_ws r with
          | c :: r' =>
              if Ascii.eqb c ","%char then
                match parse_elements fuel r' with
                | Some (vs, r'') => Some (v :: vs, r'')
                | None => None
                end
              else if Ascii.eqb c "]"%char then Some ([v], r')
              else None
          | [] => None
          end
      | None => None
      end
  end
with parse_members (fuel : nat) (s : list ascii) {struct fuel}
  : option (gmap string pyval * list ascii) :=
  match fuel with
  | O => None
  | S fuel =>
      match skip_ws s with
      | q :: r =>
          if Ascii.eqb q dquote then
            match parse_string_body r with
            | Some (k, r1) =>
                match skip_ws r1 with
                | c :: r2 =>
                    if Ascii.eqb c ":"%char then
                      match parse_value fuel r2 with
                      | Some (v, r3) =>
                          match skip_ws r3 with
                          | c' :: r4 =>
                              if Ascii.eqb c' ","%char then
                                match parse_members fuel r4 with
                                | Some (d, r5) => Some (d ∪ {[ k := v ]}, r5)
                                | None => None
                                end
                              else if Ascii.eqb c' "}"%char
                              then Some ({[ k := v ]}, r4)
                              else None
                          | [] => None
                          end
                      | None => None
                      end
                    else None
                | [] => None
                end
            | None => None
            end
          else None
      | [] => None
      end
  end.

(** A decoder for a subset of JSON (no escapes, no fractions or
    exponents), standing in for [json.loads] in the examples. *)
Definition json_loads_subset (s : string) : pyval + string :=
  match parse_value (S (String.length s)) (list_ascii_of_string s) with
  | Some (v, r) =>
      match skip_ws r with
      | [] => inl v
      | _ :: _ => inr "Extra data"
      end
  | None => inr "Expecting value"
  end.

(** A [get_final_value] for the examples: the value on success, the error
    text on failure. *)
Definition sample_get_final_value (c : Content) : pyval :=
  match c with
  | ContentToolResult _ v None => v
  | ContentToolResult _ _ (Some e) => PyStr e
  | _ => PyNone
  end.

(** A [Turn.text] for the examples: the texts of the turn's [ContentText]
    items, joined. *)
Definition sample_Turn_text (t : Turn) : string :=
  String.concat EmptyString
    (omap (fun c => match c with ContentText s => Some s | _ => None end)
          (contents t)).



(** ** Sample data for the examples *)

Definition sample_provider : AnthropicProvider :=
  {| _model := "claude-3-5-sonnet-latest"; _max_tokens := 4096 |}.

Definition user_turn (text : string) : Turn :=
  {| role := "user"; contents := [ContentText text];
     json := None; tokens := None |}.

Definition assistant_turn (text : string) : Turn :=
  {| role := "assistant"; contents := [ContentText text];
     json := None; tokens := None |}.

Definition system_turn (text : string) : Turn :=
  {| role := "system"; contents := [ContentText text];
     json := None; tokens := None |}.

Definition tool_turn (text : string) : Turn :=
  {| role := "tool"; contents := [ContentText text];
     json := None; tokens := None |}.

(** The message skeleton of a [message_start] event. *)
Definition sample_skeleton : Message :=
  {| msg_id := "msg_01"; msg_model := "claude-3-5-sonnet-latest";
     msg_role := "assistant"; content := [];
     stop_reason := None; stop_sequence := None;
     usage := {| input_tokens := 12; output_tokens := 1 |} |}.

(** A text streamed in two pieces, a tool call whose input object arrives
    in two pieces of partial JSON, a tool call with one empty piece, and a
    tool call with no input delta at all. *)
Definition sample_blocks : list BlockStream :=
  [ TextStream ["Let me "; "check."];
    ToolUseStream "toolu_01" "get_weather"
      [ "{" +:+ String dquote "city" +:+ String dquote ": ";
        String dquote "Paris" +:+ String dquote "}" ];
    ToolUseStream "toolu_02" "now" [EmptyString];
    ToolUseStream "toolu_03" "ping" [] ].

Definition sample_end : StreamEnd :=
  {| end_stop_reason := Some "tool_use"; end_stop_sequence := None;
     end_output_tokens := 40 |}.

(** A completion holding the extraction pseudo-tool's call with the given
    input. *)
Definition extraction_completion (input : pyval) : Message :=
  {| msg_id := "msg_02"; msg_model := "claude-3-5-sonnet-latest";
     msg_role := "assistant";
     content := [ TextBlock "Here it is.";
                  ToolUseBlock "toolu_04" "_structured_tool_call" input ];
     stop_reason := Some "tool_use"; stop_sequence := None;
     usage := {| input_tokens := 20; output_tokens := 9 |} |}.

(** An accumulator whose second block is a tool call with the given
    input. *)
Definition accumulator_with_input (input : pyval) : Message :=
  {| msg_id := "msg_03"; msg_model := "claude-3-5-sonnet-latest";
     msg_role := "assistant";
     content := [ TextBlock "Looking."; ToolUseBlock "toolu_05" "now" input ];
     stop_reason := None; stop_sequence := None;
     usage := {| input_tokens := 7; output_tokens := 1 |} |}.

Definition sample_contents : list Content :=
  [ ContentText "What is in the picture?";
    ContentJson (PyDict {[ "x" := PyInt 1 ]});
    ContentImageInline "image/png" (Some "iVBORw0KGgo=");
    ContentToolRequest "toolu_06" "get_weather"
      (PyDict {[ "city" := PyStr "Paris" ]});
    ContentToolResult "toolu_06" (PyStr "sunny") None ].

Definition sample_question : MessageParam :=
  {| mp_role := "user"; mp_content := [TextBlock "2+2?"] |}.

(** The request for [sample_question] with a data model of empty schema
    and no overrides. *)
Definition sample_extraction_request (stream : bool) : gmap string ArgVal :=
  {[ "stream" := ArgBool stream;
     "messages" := ArgMessages [sample_question];
     "model" := ArgStr "claude-3-5-sonnet-latest";
     "max_tokens" := ArgInt 4096;
     "tools" := ArgTools [extraction_tool_param (PyDict ∅)];
     "tool_choice" := ArgToolChoice "tool" "_structured_tool_call" ]}.

(** The request for a system turn [be terse] and a user turn [hi]. *)
Definition sample_terse_request : gmap string ArgVal :=
  {[ "stream" := ArgBool false;
     "messages" :=
       ArgMessages [ {| mp_role := "user"; mp_content := [TextBlock "hi"] |} ];
     "model" := ArgStr "claude-3-5-sonnet-latest";
     "max_tokens" := ArgInt 4096;
     "tools" := ArgTools [];
     "system" := ArgStr "be terse" ]}.

Definition sample_overrides : gmap string ArgVal :=
  {[ "model" := ArgStr "claude-3-opus-latest";
     "system" := ArgStr "be verbose";
     "tool_choice" := ArgToolChoice "auto" EmptyString ]}.

(** The same turns with a data model and [sample_overrides]. *)
Definition sample_overridden_request : gmap string ArgVal :=
  {[ "stream" := ArgBool false;
     "messages" :=
       ArgMessages [ {| mp_role := "user"; mp_content := [TextBlock "hi"] |} ];
     "model" := ArgStr "claude-3-opus-latest";
     "max_tokens" := ArgInt 4096;
     "tools" := ArgTools [extraction_tool_param (PyDict ∅)];
     "system" := ArgStr "be verbose";
     "tool_choice" := ArgToolChoice "tool" "_structured_tool_call" ]}.

(** The completion that [sample_blocks] stream. *)
Definition sample_completion : Message :=
  {| msg_id := "msg_01"; msg_model := "claude-3-5-sonnet-latest";
     msg_role := "assistant";
     content :=
       [ TextBlock "Let me check.";
         ToolUseBlock "toolu_01" "get_weather"
           (PyDict {[ "city" := PyStr "Paris" ]});
         ToolUseBlock "toolu_02" "now" (PyDict ∅);
         ToolUseBlock "toolu_03" "ping" (PyDict ∅) ];
     stop_reason := Some "tool_use"; stop_sequence := None;
     usage := {| input_tokens := 12; output_tokens := 40 |} |}.

(** An accumulator with a text block and a tool call. *)
Definition sample_accumulator (text : string) (input : pyval) : Message :=
  {| msg_id := "msg_04"; msg_model := "claude-3-5-sonnet-latest";
     msg_role := "assistant";
     content := [ TextBlock text; ToolUseBlock "toolu_08" "search" input ];
     stop_reason := None; stop_sequence := None;
     usage := {| input_tokens := 5; output_tokens := 1 |} |}.

(** The turn of [sample_completion]. *)
Definition sample_turn : Turn :=
  {| role := "assistant";
     contents :=
       [ ContentText "Let me check.";
         ContentToolRequest "toolu_01" "get_weather"
           (PyDict {[ "city" := PyStr "Paris" ]});
         ContentToolRequest "toolu_02" "now" (PyDict ∅);
         ContentToolRequest "toolu_03" "ping" (PyDict ∅) ];
     json := Some sample_completion;
     tokens := Some (12%Z, 40%Z) |}.


(** A tool function with typed parameters. *)
Definition sample_function : FunctionDefinition :=
  {| fn_name := "get_weather";
     fn_description := Some "Look up the weather";
     fn_parameters := None |}.

Definition sample_parameters : gmap string pyval :=
  {[ "type" := PyStr "object";
     "properties" := PyDict {[ "city" := PyDict {[ "type" := PyStr "string" ]} ]} ]}.

(** A rendering of type objects for the examples: a type is its name, and
    a name of the vendor package needs the package imported. *)
Definition sample_get_type_string (t : string) : string * gset string :=
  (t, if String.prefix "anthropic." t then {[ "import anthropic" ]} else ∅).

(** An overload of a [create] method with the given [stream]
    annotation. *)
Definition create_overload (stream_annotation : string) : Callable string :=
  {| callable_name := "create";
     parameters :=
       [ {| param_name := "self"; param_kind := POSITIONAL_OR_KEYWORD;
            param_default := DefaultOther; param_annotation := "inspect._empty" |};
         {| param_name := "max_tokens"; param_kind := KEYWORD_ONLY;
            param_default := DefaultOther; param_annotation := "int" |};
         {| param_name := "stream"; param_kind := KEYWORD_ONLY;
            param_default := DefaultOther;
            param_annotation := stream_annotation |};
         {| param_name := "kwargs"; param_kind := VAR_KEYWORD;
            param_default := DefaultOther; param_annotation := "Any" |} ];
     type_hints :=
       {[ "max_tokens" := "int"; "stream" := stream_annotation ]} |}.

Section Adapter.

(** Collaborators that live outside the adapter: the standard library's
    [json.loads] (a decoded value, or the message of the
    [JSONDecodeError]), [ContentToolResult.get_final_value], the schema
    generator [basemodel_to_param_schema] over pydantic models, and the
    [text] attribute of a [Turn]. *)
Variable json_loads : string -> pyval + string.
Variable get_final_value : Content -> pyval.
Variable BaseModel : Type.
Variable basemodel_to_param_schema : BaseModel -> pyval.
Variable Turn_text : Turn -> string.

(** ** Streaming merge: [stream_merge_chunks] *)

Definition stream_merge_chunks (completion : option Message) (chunk : Chunk)
  : result (option Message) :=
  match chunk with
  | MessageStartEvent message => Ok (Some message)
  | ContentBlockStartEvent _ content_block =>
      m <- deref completion "content" ;;
      Ok (Some (with_content m (content m ++ [content_block])))
  | ContentBlockDeltaEvent index delta =>
      m <- deref completion "content" ;;
      this_content <- getitem (content m) index ;;
      match delta with
      | TextDelta text =>
          match this_content with
          | TextBlock t =>
              Ok (Some (with_content m
                    (<[index := TextBlock (t +:+ text)]> (content m))))
          | _ => Raise (AttributeError "text")
          end
      | InputJSONDelta partial_json =>
          match this_content with
          | ToolUseBlock id name input =>
              let input := match input with PyStr s => s | _ => "" end in
              Ok (Some (with_content m
                    (<[index := ToolUseBlock id name
                                  (PyStr (input +:+ partial_json))]>
                       (content m))))
          | _ => Raise (AttributeError "input")
          end
      end
  | ContentBlockStopEvent index =>
      m <- deref completion "content" ;;
      this_content <- getitem (content m) index ;;
      match this_content with
      | ToolUseBlock id name (PyStr s) =>
          match json_loads (or_empty_object s) with
          | inl v =>
              Ok (Some (with_content m
                    (<[index := ToolUseBlock id name v]> (content m))))
          | inr e => Raise (ValueError ("Invalid JSON input: " +:+ e))
          end
      | _ => Ok (Some m)
      end
  | MessageDeltaEvent sr ss out =>
      m <- deref completion "stop_reason" ;;
      Ok (Some {| msg_id := msg_id m; msg_model := msg_model m;
                  msg_role := msg_role m; content := content m;
                  stop_reason := sr; stop_sequence := ss;
                  usage := {| input_tokens := input_tokens (usage m);
                              output_tokens := out |} |})
  | MessageStopEvent => Ok completion
  end.

(** The caller's loop: every chunk of the stream is merged into the
    accumulator, which starts as [None]. *)
Definition merge_all (completion : option Message) (chunks : list Chunk)
  : result (option Message) :=
  for_each stream_merge_chunks completion chunks.

(** ** Request construction *)

Definition _as_content_block (c : Content) : result ContentBlock :=
  match c with
  | ContentText text => Ok (TextBlock text)
  | ContentJson _ => Ok (TextBlock "<structured data/>")
  | ContentImageInline content_type data =>
      Ok (ImageBlock {| source_type := "base64";
                        media_type := content_type;
                        source_data := default "" data |})
  | ContentImageRemote _ =>
      Raise (NotImplementedError
        ("Remote images aren't supported by Anthropic (Claude). " +:+
         "Consider downloading the image and using content_image_file() instead."))
  | ContentToolRequest id name arguments => Ok (ToolUseBlock id name arguments)
  | ContentToolResult id _ error =>
      Ok (ToolResultBlock id (get_final_value c)
            (match error with Some _ => true | None => false end))
  end.

(** One iteration of the loop over [turns]. *)
Definition as_message_params_step (messages : list MessageParam) (turn : Turn)
  : result (list MessageParam) :=
  if String.eqb (role turn) "system" then Ok messages
  else if negb (existsb (String.eqb (role turn)) ["user"; "assistant"]) then
    Raise (ValueError ("Unknown role " +:+ role turn))
  else
    content <- comprehension _as_content_block (contents turn) ;;
    let role := if String.eqb (role turn) "user" then "user" else "assistant" in
    Ok (messages ++ [{| mp_role := role; mp_content := content |}]).

Definition _as_message_params (turns : list Turn) : result (list MessageParam) :=
  for_each as_message_params_step [] turns.

Definition structured_warning : string :=
  "Anthropic does not support structured data extraction in streaming mode.".

(** The derived fields of the request, before the caller's overrides. *)
Definition derived_args (self : AnthropicProvider) (stream : bool)
    (messages : list MessageParam) (tool_schemas : list ToolParam)
  : gmap string ArgVal :=
  {[ "stream" := ArgBool stream;
     "messages" := ArgMessages messages;
     "model" := ArgStr (_model self);
     "max_tokens" := ArgInt (_max_tokens self);
     "tools" := ArgTools tool_schemas ]}.

(** The extraction pseudo-tool: [Tool(_structured_tool_call)] with its
    parameters replaced by an object whose property [data] carries the
    schema of the data model. *)
Definition data_model_Tool (data_model : BaseModel) : Tool :=
  set_parameters structured_tool_call_Tool
    {[ "type" := PyStr "object";
       "properties" :=
         PyDict {[ "data" := basemodel_to_param_schema data_model ]} ]}.

(** [if data_model_tool: kwargs_full["tool_choice"] = ...] *)
Definition set_tool_choice (data_model_tool : option Tool)
    (kwargs_full : gmap string ArgVal) : gmap string ArgVal :=
  match data_model_tool with
  | Some t => <["tool_choice" := ArgToolChoice "tool" (tool_name t)]> kwargs_full
  | None => kwargs_full
  end.

(** [if "system" not in kwargs_full: ...] *)
Definition set_system (turns : list Turn) (kwargs_full : gmap string ArgVal)
  : gmap string ArgVal :=
  match kwargs_full !! "system" with
  | Some _ => kwargs_full
  | None =>
      match turns with
      | t0 :: _ =>
          if String.eqb (role t0) "system"
          then <["system" := ArgStr (Turn_text t0)]> kwargs_full
          else kwargs_full
      | [] => kwargs_full
      end
  end.

Definition _chat_perform_args (self : AnthropicProvider) (stream : bool)
    (turns : list Turn) (tools : list (string * Tool))
    (data_model : option BaseModel) (kwargs : option (gmap string ArgVal))
  : W (gmap string ArgVal) :=
  tool_schemas <~
    wlift (comprehension (fun tool => _anthropic_tool_schema (schema tool))
             (tools.*2)) ;;
  st <~
    match data_model with
    | Some dm =>
        let data_model_tool := data_model_Tool dm in
        ts <~ wlift (_anthropic_tool_schema (schema data_model_tool)) ;;
        let tool_schemas := tool_schemas ++ [ts] in
        if stream then
          _ <~ warn structured_warning ;;
          wret (Some data_model_tool, tool_schemas, false)
        else wret (Some data_model_tool, tool_schemas, stream)
    | None => wret (None, tool_schemas, stream)
    end ;;
  let '(data_model_tool, tool_schemas, stream) := st in
  messages <~ wlift (_as_message_params turns) ;;
  let kwargs_full :=
    default ∅ kwargs ∪ derived_args self stream messages tool_schemas in
  let kwargs_full := set_tool_choice data_model_tool kwargs_full in
  let kwargs_full := set_system turns kwargs_full in
  wret kwargs_full.


(** ** The equivalent completion of a stream *)

(** The block a non-streaming completion carries for the same content: the
    joined text, or the value the joined partial JSON denotes (the empty
    object when nothing was streamed). *)
Definition completed_block (b : BlockStream) : option ContentBlock :=
  match b with
  | TextStream pieces => Some (TextBlock (join pieces))
  | ToolUseStream id name pieces =>
      if String.eqb (join pieces) EmptyString
      then Some (ToolUseBlock id name (PyDict ∅))
      else match json_loads (join pieces) with
           | inl v => Some (ToolUseBlock id name v)
           | inr _ => None
           end
  end.

(** The equivalent single non-streaming completion. *)
Definition equivalent_completion (skeleton : Message) (bs : list BlockStream)
    (fin : StreamEnd) : option Message :=
  blocks ← mapM completed_block bs;
  Some {| msg_id := msg_id skeleton; msg_model := msg_model skeleton;
          msg_role := msg_role skeleton; content := blocks;
          stop_reason := end_stop_reason fin;
          stop_sequence := end_stop_sequence fin;
          usage := {| input_tokens := input_tokens (usage skeleton);
                      output_tokens := end_output_tokens fin |} |}.

(** The streaming path end to end: merge every chunk, then finalize. *)
Definition stream_then_turn (chunks : list Chunk) (has_data_model : bool)
  : result Turn :=
  acc <- merge_all None chunks ;;
  completion <- deref acc "content" ;;
  stream_turn completion has_data_model.

(** ** Vendor blocks and back *)


(** * Properties *)

(** ** Strings, loops and records *)

Lemma append_nil_r (s : string) : s +:+ EmptyString = s.
Proof.
  induction s as [|c s IH]; [reflexivity |].
  change (String c (s +:+ EmptyString) = String c s). now f_equal.
Qed.

Lemma append_assoc (s1 s2 s3 : string) :
  (s1 +:+ s2) +:+ s3 = s1 +:+ (s2 +:+ s3).
Proof.
  induction s1 as [|c s1 IH]; [reflexivity |].
  change (String c ((s1 +:+ s2) +:+ s3) = String c (s1 +:+ (s2 +:+ s3))).
  now f_equal.
Qed.


Lemma for_each_app {A S} (body : S -> A -> result S) (l1 l2 : list A) (s : S) :
  for_each body s (l1 ++ l2) =
  (s' <- for_each body s l1 ;; for_each body s' l2).
Proof.
  revert s. induction l1 as [|a l1 IH]; intros s; simpl; [reflexivity |].
  destruct (body s a) as [s'|e]; simpl; [apply IH | reflexivity].
Qed.

(** A loop whose body only appends to its accumulator can be run from the
    empty list and prefixed afterwards. *)
Lemma for_each_appends {A B} (body : list B -> A -> result (list B)) :
  (forall acc x, body acc x = (r <- body [] x ;; Ok (acc ++ r))) ->
  forall l acc,
    for_each body acc l = (r <- for_each body [] l ;; Ok (acc ++ r)).
Proof.
  intros Hbody. induction l as [|a l IH]; intros acc; simpl.
  - now rewrite app_nil_r.
  - rewrite (Hbody acc a). destruct (body [] a) as [r|e]; simpl; [| reflexivity].
    rewrite (IH (acc ++ r)), (IH r).
    destruct (for_each body [] l) as [r'|e]; simpl; [| reflexivity].
    now rewrite app_assoc.
Qed.

Lemma with_content_same (m : Message) : with_content m (content m) = m.
Proof. now destruct m. Qed.

Lemma with_content_twice (m : Message) (c c' : list ContentBlock) :
  with_content (with_content m c) c' = with_content m c'.
Proof. reflexivity. Qed.

Lemma getitem_last {A} (pre : list A) (x : A) :
  getitem (pre ++ [x]) (length pre) = Ok x.
Proof. unfold getitem. now rewrite list_lookup_middle. Qed.

Lemma setitem_last {A} (pre : list A) (x y : A) :
  <[length pre := y]> (pre ++ [x]) = pre ++ [y].
Proof.
  replace (length pre) with (length pre + 0) by lia.
  now rewrite insert_app_r.
Qed.

(** ** The merge follows the protocol *)

Lemma merge_text_deltas (pieces : list string) :
  forall (m : Message) (pre : list ContentBlock) (t : string),
    merge_all (Some (with_content m (pre ++ [TextBlock t])))
      (map (ContentBlockDeltaEvent (length pre)) (map TextDelta pieces)) =
    Ok (Some (with_content m (pre ++ [TextBlock (t +:+ join pieces)]))).
Proof.
  unfold merge_all.
  induction pieces as [|p ps IH]; intros m pre t; simpl.
  - now rewrite append_nil_r.
  - rewrite getitem_last; simpl. rewrite setitem_last, with_content_twice.
    rewrite IH. now rewrite append_assoc.
Qed.

Lemma merge_json_deltas (pieces : list string) :
  forall (m : Message) (pre : list ContentBlock) (id name s : string),
    merge_all (Some (with_content m (pre ++ [ToolUseBlock id name (PyStr s)])))
      (map (ContentBlockDeltaEvent (length pre)) (map InputJSONDelta pieces)) =
    Ok (Some (with_content m
               (pre ++ [ToolUseBlock id name (PyStr (s +:+ join pieces))]))).
Proof.
  unfold merge_all.
  induction pieces as [|p ps IH]; intros m pre id name s; simpl.
  - now rewrite append_nil_r.
  - rewrite getitem_last; simpl. rewrite setitem_last, with_content_twice.
    rewrite IH. now rewrite append_assoc.
Qed.

Lemma or_empty_object_nonempty (s : string) :
  s <> EmptyString -> or_empty_object s = s.
Proof.
  intros Hs. unfold or_empty_object.
  destruct (String.eqb_spec s EmptyString); [contradiction | reflexivity].
Qed.

(** One block of the stream, merged after [pre], leaves the completed
    block at the end of the content list. *)
Lemma merge_block (b : BlockStream) (blk : ContentBlock) (m : Message)
    (pre : list ContentBlock) :
  json_loads "{}" = inl (PyDict ∅) ->
  completed_block b = Some blk ->
  merge_all (Some (with_content m pre)) (block_events (length pre) b) =
  Ok (Some (with_content m (pre ++ [blk]))).
Proof.
  intros Hempty Hblk. unfold merge_all, block_events.
  cbn [for_each stream_merge_chunks deref rbind content with_content].
  rewrite with_content_twice, for_each_app.
  destruct b as [pieces | id name pieces]; cbn [block_skeleton block_deltas].
  - fold (merge_all (Some (with_content m (pre ++ [TextBlock EmptyString])))
            (map (ContentBlockDeltaEvent (length pre)) (map TextDelta pieces))).
    rewrite merge_text_deltas. simpl. rewrite getitem_last. simpl.
    simpl in Hblk. now inversion Hblk.
  - destruct pieces as [|p ps].
    + simpl. rewrite getitem_last. simpl.
      simpl in Hblk. now inversion Hblk.
    + cbn [map for_each stream_merge_chunks deref rbind content with_content].
      rewrite getitem_last.
      cbn [rbind]. rewrite setitem_last.
      fold (merge_all
              (Some (with_content m
                 (pre ++ [ToolUseBlock id name (PyStr (EmptyString +:+ p))])))
              (map (ContentBlockDeltaEvent (length pre))
                 (map InputJSONDelta ps))).
      rewrite merge_json_deltas.
      cbn [rbind for_each stream_merge_chunks deref content with_content].
      rewrite getitem_last. cbn [rbind].
      cbn [completed_block join foldr] in Hblk.
      change (EmptyString +:+ p) with p.
      fold (join ps) in Hblk |- *.
      destruct (String.eqb_spec (p +:+ join ps) EmptyString) as [Heq | Hne].
      * rewrite Heq. unfold or_empty_object. simpl. rewrite Hempty.
        rewrite setitem_last. now inversion Hblk.
      * rewrite (or_empty_object_nonempty _ Hne).
        destruct (json_loads (p +:+ join ps)) as [v | e]; [| discriminate].
        rewrite setitem_last. now inversion Hblk.
Qed.


Lemma merge_blocks (bs : list BlockStream) (blks : list ContentBlock) :
  json_loads "{}" = inl (PyDict ∅) ->
  Forall2 (fun b blk => completed_block b = Some blk) bs blks ->
  forall (m : Message) (pre : list ContentBlock),
    merge_all (Some (with_content m pre)) (blocks_events (length pre) bs) =
    Ok (Some (with_content m (pre ++ blks))).
Proof.
  intros Hempty Hall.
  induction Hall as [|b blk bs blks Hb _ IH]; intros m pre;
    cbn [blocks_events].
  - unfold merge_all. cbn [for_each]. now rewrite app_nil_r.
  - unfold merge_all. rewrite for_each_app.
    fold (merge_all (Some (with_content m pre)) (block_events (length pre) b)).
    rewrite (merge_block b blk m pre Hempty Hb). cbn [rbind].
    specialize (IH m (pre ++ [blk])).
    rewrite length_app, Nat.add_1_r in IH. unfold merge_all in IH.
    rewrite IH. now rewrite <- app_assoc.
Qed.

(** C1. For a stream of chunks in arrival order (message start, then block
    after block its start, deltas and stop, then the message delta and the
    stop), merging the chunks left to right from the empty accumulator
    yields the equivalent non-streaming completion, and finalizing with
    [stream_turn] gives the very result of [value_turn] on that completion
    under the same [has_data_model] flag. *)
Theorem streamed_turn_equals_value_turn (skeleton : Message)
    (bs : list BlockStream) (fin : StreamEnd) (completion : Message)
    (has_data_model : bool) :
  json_loads "{}" = inl (PyDict ∅) ->
  content skeleton = [] ->
  equivalent_completion skeleton bs fin = Some completion ->
  merge_all None (stream_events skeleton bs fin) = Ok (Some completion) /\
  stream_then_turn (stream_events skeleton bs fin) has_data_model =
  value_turn completion has_data_model.
Proof.
  intros Hempty Hskel Heq.
  assert (Hmerge :
    merge_all None (stream_events skeleton bs fin) = Ok (Some completion)).
  { unfold equivalent_completion in Heq.
    destruct (mapM completed_block bs) as [blks|] eqn:Hblks; [| discriminate].
    apply mapM_Some in Hblks. simpl in Heq. inversion Heq as [Hc]. clear Heq.
    unfold merge_all, stream_events. cbn [for_each stream_merge_chunks rbind].
    rewrite for_each_app.
    pose proof (merge_blocks bs blks Hempty Hblks skeleton []) as Hm.
    rewrite <- Hskel, with_content_same in Hm. rewrite Hskel in Hm.
    unfold merge_all in Hm. simpl length in Hm. rewrite Hm. reflexivity. }
  split; [exact Hmerge |].
  unfold stream_then_turn. rewrite Hmerge. reflexivity.
Qed.


(** ** Canonicalization, block by block *)

Lemma as_turn_step_appends (h : bool) (acc : list Content) (b : ContentBlock) :
  as_turn_step h acc b = (r <- as_turn_step h [] b ;; Ok (acc ++ r)).
Proof.
  destruct b as [text | src | id name input | id c e]; simpl;
    try reflexivity; try (now rewrite app_nil_r).
  destruct (h && String.eqb name "_structured_tool_call"); [| reflexivity].
  destruct input as [| | | | |d]; try reflexivity.
  now destruct (d !! "data").
Qed.

Lemma as_turn_contents_cons (h : bool) (b : ContentBlock)
    (l : list ContentBlock) :
  as_turn_contents h (b :: l) =
  (c1 <- as_turn_step h [] b ;; c2 <- as_turn_contents h l ;; Ok (c1 ++ c2)).
Proof.
  unfold as_turn_contents. simpl.
  destruct (as_turn_step h [] b) as [c1|e]; simpl; [| reflexivity].
  apply (for_each_appends _ (as_turn_step_appends h)).
Qed.

Lemma as_turn_contents_app (h : bool) (l1 l2 : list ContentBlock) :
  as_turn_contents h (l1 ++ l2) =
  (c1 <- as_turn_contents h l1 ;; c2 <- as_turn_contents h l2 ;;
   Ok (c1 ++ c2)).
Proof.
  unfold as_turn_contents. rewrite for_each_app.
  destruct (for_each (as_turn_step h) [] l1) as [c1|e]; simpl; [| reflexivity].
  apply (for_each_appends _ (as_turn_step_appends h)).
Qed.

Lemma as_turn_step_raises (h : bool) (acc : list Content) (b : ContentBlock)
    (e : exn) :
  as_turn_step h acc b = Raise e -> exists msg, e = ValueError msg.
Proof.
  destruct b as [text | src | id name input | id c er]; simpl; try discriminate.
  destruct (h && String.eqb name "_structured_tool_call"); [| discriminate].
  destruct input as [| | | | |d]; try (intros [= <-]; eauto).
  destruct (d !! "data"); [discriminate | intros [= <-]; eauto].
Qed.

Lemma as_turn_contents_raises (h : bool) (l : list ContentBlock) (e : exn) :
  as_turn_contents h l = Raise e -> exists msg, e = ValueError msg.
Proof.
  unfold as_turn_contents. generalize (@nil Content).
  induction l as [|b l IH]; intros acc; simpl; [discriminate |].
  destruct (as_turn_step h acc b) as [acc'|e'] eqn:Hstep; simpl.
  - apply IH.
  - intros [= <-]. eapply as_turn_step_raises, Hstep.
Qed.

(** C3. With [has_data_model] set, a [tool_use] block named as the
    extraction pseudo-tool whose input is a mapping holding the key [data]
    is emitted as [ContentJson] of exactly the value under [data], in its
    place among the contents; if the input is not a mapping, or is a mapping
    without the key, canonicalization raises a [ValueError]. *)
Theorem extraction_tool_use_canonicalization (completion : Message)
    (pre post : list ContentBlock) (id : string) (input : pyval) :
  content completion =
    pre ++ ToolUseBlock id "_structured_tool_call" input :: post ->
  (forall d v cs1 cs2,
      input = PyDict d -> d !! "data" = Some v ->
      as_turn_contents true pre = Ok cs1 ->
      as_turn_contents true post = Ok cs2 ->
      _as_turn completion true =
      Ok {| role := "assistant";
            contents := cs1 ++ ContentJson v :: cs2;
            json := Some completion;
            tokens := Some (input_tokens (usage completion),
                            output_tokens (usage completion)) |}) /\
  ((isinstance_dict input = false \/
    exists d, input = PyDict d /\ d !! "data" = None) ->
   exists msg, _as_turn completion true = Raise (ValueError msg)) /\
  (forall cs1, as_turn_contents true pre = Ok cs1 ->
     isinstance_dict input = false ->
     _as_turn completion true =
     Raise (ValueError
              "Expected data extraction tool to return a dictionary.")) /\
  (forall cs1 d, as_turn_contents true pre = Ok cs1 ->
     input = PyDict d -> d !! "data" = None ->
     _as_turn completion true =
     Raise (ValueError
              "Expected data extraction tool to return a 'data' field.")).
Proof.
  intros Hcontent.
  assert (Hsplit : as_turn_contents true (content completion) =
    (c1 <- as_turn_contents true pre ;;
     c2 <- (c <- as_turn_step true []
                   (ToolUseBlock id "_structured_tool_call" input) ;;
            c' <- as_turn_contents true post ;; Ok (c ++ c')) ;;
     Ok (c1 ++ c2))).
  { rewrite Hcontent, as_turn_contents_app. now rewrite as_turn_contents_cons. }
  repeat split.
  - intros d v cs1 cs2 -> Hd Hpre Hpost. unfold _as_turn.
    rewrite Hsplit, Hpre, Hpost. simpl. now rewrite Hd.
  - intros Hbad.
    destruct (_as_turn completion true) as [t|e] eqn:Hturn.
    + exfalso. unfold _as_turn in Hturn. rewrite Hsplit in Hturn.
      destruct (as_turn_contents true pre); [| discriminate].
      destruct Hbad as [Hnd | (d & -> & Hd)].
      * destruct input; simpl in Hnd, Hturn; discriminate.
      * simpl in Hturn. rewrite Hd in Hturn. discriminate.
    + unfold _as_turn in Hturn.
      destruct (as_turn_contents true (content completion)) as [c|e'] eqn:Hc;
        simpl in Hturn; [discriminate |].
      injection Hturn as <-.
      destruct (as_turn_contents_raises _ _ _ Hc) as [msg ->]. eauto.
  - intros cs1 Hpre Hnd. unfold _as_turn. rewrite Hsplit, Hpre.
    destruct input; simpl in Hnd |- *; (reflexivity || discriminate).
  - intros cs1 d Hpre -> Hd. unfold _as_turn. rewrite Hsplit, Hpre.
    simpl. now rewrite Hd.
Qed.

Lemma emits_content_type (b : ContentBlock) :
  emits_content b = false <->
  block_type b <> "text" /\ block_type b <> "tool_use".
Proof.
  destruct b; simpl; split; try discriminate; try tauto;
    intros _; split; discriminate.
Qed.

Lemma as_turn_step_length (h : bool) (b : ContentBlock) (cs : list Content) :
  as_turn_step h [] b = Ok cs ->
  length cs = if emits_content b then 1 else 0.
Proof.
  destruct b as [text | src | id name input | id c e]; simpl;
    try (intros [= <-]; reflexivity).
  destruct (h && String.eqb name "_structured_tool_call");
    [| intros [= <-]; reflexivity].
  destruct input as [| | | | |d]; try discriminate.
  destruct (d !! "data"); [intros [= <-]; reflexivity | discriminate].
Qed.

(** C9. Canonicalization emits content only for blocks of type [text] or
    [tool_use]: a block of any other type can be removed from the
    completion without changing the contents or the outcome, the number of
    contents is the number of [text] and [tool_use] blocks, and the turn
    returned has role [assistant]. *)
Theorem as_turn_emits_text_and_tool_use_only (completion : Message)
    (has_data_model : bool) :
  (forall turn, _as_turn completion has_data_model = Ok turn ->
     role turn = "assistant" /\
     length (contents turn) =
       length (filter (fun b => emits_content b = true) (content completion)))
  /\
  (forall pre b post,
     block_type b <> "text" -> block_type b <> "tool_use" ->
     as_turn_step has_data_model [] b = Ok [] /\
     as_turn_contents has_data_model (pre ++ b :: post) =
     as_turn_contents has_data_model (pre ++ post)).
Proof.
  split.
  - intros turn Hturn. unfold _as_turn in Hturn.
    destruct (as_turn_contents has_data_model (content completion))
      as [cs|e] eqn:Hcs; simpl in Hturn; [| discriminate].
    injection Hturn as <-. split; [reflexivity |]. simpl.
    revert cs Hcs. generalize (content completion) as l.
    induction l as [|b l IH]; intros cs Hcs.
    + unfold as_turn_contents in Hcs. simpl in Hcs. now injection Hcs as <-.
    + rewrite as_turn_contents_cons in Hcs.
      destruct (as_turn_step has_data_model [] b) as [c1|] eqn:Hb;
        simpl in Hcs; [| discriminate].
      destruct (as_turn_contents has_data_model l) as [c2|];
        simpl in Hcs; [| discriminate].
      injection Hcs as <-. rewrite length_app, (IH c2 eq_refl).
      rewrite (as_turn_step_length _ _ _ Hb).
      rewrite filter_cons. destruct (emits_content b) eqn:He.
      * rewrite decide_True by reflexivity. reflexivity.
      * rewrite decide_False by discriminate. reflexivity.
  - intros pre b post Ht1 Ht2.
    assert (Hb : as_turn_step has_data_model [] b = Ok []).
    { destruct b; simpl in *; congruence. }
    split; [exact Hb |].
    rewrite !as_turn_contents_app, as_turn_contents_cons, Hb. simpl.
    destruct (as_turn_contents has_data_model pre); simpl; [| reflexivity].
    now destruct (as_turn_contents has_data_model post).
Qed.


(** ** Canonical content to vendor blocks *)

(** C10. A [ContentToolResult] maps to a [tool_result] block whose
    [tool_use_id] is the item's identifier and whose [is_error] is true
    exactly when the item's error is set, false when it is absent. *)
Theorem tool_result_block_is_error (id : string) (value : pyval)
    (error : option string) :
  exists content is_error,
    _as_content_block (ContentToolResult id value error) =
      Ok (ToolResultBlock id content is_error) /\
    block_type (ToolResultBlock id content is_error) = "tool_result" /\
    content = get_final_value (ContentToolResult id value error) /\
    (is_error = true <-> is_Some error) /\
    (error = None -> is_error = false).
Proof.
  eexists _, _. split; [reflexivity |]. split; [reflexivity |].
  split; [reflexivity |]. destruct error as [e|]; simpl.
  - split; [split; eauto | discriminate].
  - split; [split; [discriminate | intros [? [=]]] | reflexivity].
Qed.

(** On response objects the loop is the one of [_as_turn]. *)
Lemma as_turn_contents_on_objects (h : bool) (bs : list ContentBlock) :
  as_turn_contents_on h (map BlockObject bs) = as_turn_contents h bs.
Proof.
  unfold as_turn_contents_on, as_turn_contents. generalize (@nil Content).
  induction bs as [|b bs IH]; intros acc; [reflexivity |].
  simpl. destruct (as_turn_step h acc b); simpl; [apply IH | reflexivity].
Qed.



(** ** Turns to vendor messages *)

Lemma as_message_params_step_appends (acc : list MessageParam) (t : Turn) :
  as_message_params_step acc t =
  (r <- as_message_params_step [] t ;; Ok (acc ++ r)).
Proof.
  unfold as_message_params_step.
  destruct (String.eqb (role t) "system"); simpl;
    [now rewrite app_nil_r |].
  destruct (negb _); [reflexivity |].
  now destruct (comprehension _as_content_block (contents t)).
Qed.

Lemma as_message_params_cons (t : Turn) (l : list Turn) :
  _as_message_params (t :: l) =
  (m1 <- as_message_params_step [] t ;;
   m2 <- _as_message_params l ;; Ok (m1 ++ m2)).
Proof.
  unfold _as_message_params. simpl.
  destruct (as_message_params_step [] t) as [m1|e]; simpl; [| reflexivity].
  apply (for_each_appends _ as_message_params_step_appends).
Qed.

Lemma as_message_params_app (l1 l2 : list Turn) :
  _as_message_params (l1 ++ l2) =
  (m1 <- _as_message_params l1 ;;
   m2 <- _as_message_params l2 ;; Ok (m1 ++ m2)).
Proof.
  unfold _as_message_params. rewrite for_each_app.
  destruct (for_each as_message_params_step [] l1) as [m1|e]; simpl;
    [| reflexivity].
  apply (for_each_appends _ as_message_params_step_appends).
Qed.

Lemma as_message_params_step_roles (t : Turn) (ms : list MessageParam) :
  as_message_params_step [] t = Ok ms ->
  Forall (fun m => mp_role m = "user" \/ mp_role m = "assistant") ms.
Proof.
  unfold as_message_params_step.
  destruct (String.eqb (role t) "system"); [intros [= <-]; constructor |].
  destruct (negb _); [discriminate |].
  destruct (comprehension _as_content_block (contents t)); [| discriminate].
  simpl. intros [= <-]. constructor; [| constructor]. simpl.
  destruct (String.eqb (role t) "user"); auto.
Qed.

(** Every message mapped from the turns has role [user] or
    [assistant]. *)
Lemma as_message_params_roles (turns : list Turn) (ms : list MessageParam) :
  _as_message_params turns = Ok ms ->
  Forall (fun m => mp_role m = "user" \/ mp_role m = "assistant") ms.
Proof.
  revert ms. induction turns as [|t turns IH]; intros ms.
  - intros [= <-]. constructor.
  - rewrite as_message_params_cons.
    destruct (as_message_params_step [] t) as [m1|] eqn:Hstep;
      [| discriminate].
    destruct (_as_message_params turns) as [m2|]; [| discriminate].
    simpl. intros [= <-]. apply Forall_app. split.
    + eapply as_message_params_step_roles, Hstep.
    + now apply IH.
Qed.

(** C7 (amended). A turn whose role is [user] or [assistant] is mapped
    to a vendor message with the same role; a system turn, leading or
    not, is skipped without an error; a turn with any other role makes
    the mapping raise [ValueError]. *)
Theorem message_params_by_role (pre post : list Turn) (turn : Turn)
    (msgs : list MessageParam) :
  _as_message_params pre = Ok msgs ->
  (role turn = "user" \/ role turn = "assistant" ->
   forall blocks,
     comprehension _as_content_block (contents turn) = Ok blocks ->
     _as_message_params (pre ++ turn :: post) =
     (rest <- _as_message_params post ;;
      Ok (msgs ++ {| mp_role := role turn; mp_content := blocks |} :: rest)))
  /\
  (role turn = "system" ->
   _as_message_params (pre ++ turn :: post) =
   _as_message_params (pre ++ post)) /\
  (role turn <> "system" -> role turn <> "user" ->
   role turn <> "assistant" ->
   _as_message_params (pre ++ turn :: post) =
   Raise (ValueError ("Unknown role " +:+ role turn))).
Proof.
  intros Hpre.
  rewrite !as_message_params_app, as_message_params_cons, Hpre.
  cbn [rbind]. unfold as_message_params_step. repeat split.
  - intros Hrole blocks Hblocks. rewrite Hblocks.
    destruct Hrole as [-> | ->]; simpl;
      now destruct (_as_message_params post).
  - intros ->. simpl. now destruct (_as_message_params post).
  - intros Hs Hu Ha.
    apply String.eqb_neq in Hs, Hu, Ha. rewrite Hs. simpl.
    now rewrite Hu, Ha.
Qed.


(** ** The stop event of a content block *)

(** C8. On a [content_block_stop] event whose index holds a [tool_use]
    block with a string input, the merge replaces the input by its JSON
    value, the empty string giving the empty object, and raises
    [ValueError] exactly when the string is not empty and is not valid
    JSON; a block that is not a [tool_use] block, or whose input is not a
    string, leaves the accumulator unchanged. *)
Theorem content_block_stop_parses_tool_input (m : Message) (index : nat)
    (b : ContentBlock) :
  json_loads "{}" = inl (PyDict ∅) ->
  content m !! index = Some b ->
  (forall id name s, b = ToolUseBlock id name (PyStr s) ->
     (s = EmptyString ->
      stream_merge_chunks (Some m) (ContentBlockStopEvent index) =
      Ok (Some (with_content m
                  (<[index := ToolUseBlock id name (PyDict ∅)]> (content m)))))
     /\
     (s <> EmptyString -> forall v, json_loads s = inl v ->
      stream_merge_chunks (Some m) (ContentBlockStopEvent index) =
      Ok (Some (with_content m
                  (<[index := ToolUseBlock id name v]> (content m))))) /\
     (s <> EmptyString -> forall e, json_loads s = inr e ->
      stream_merge_chunks (Some m) (ContentBlockStopEvent index) =
      Raise (ValueError ("Invalid JSON input: " +:+ e))) /\
     (is_ok (stream_merge_chunks (Some m) (ContentBlockStopEvent index))
        = false <->
      s <> EmptyString /\ exists e, json_loads s = inr e)) /\
  (block_type b <> "tool_use" \/
   (exists id name input,
      b = ToolUseBlock id name input /\ isinstance_str input = false) ->
   stream_merge_chunks (Some m) (ContentBlockStopEvent index) = Ok (Some m)).
Proof.
  intros Hempty Hb. split.
  - intros id name s ->.
    assert (Hrun :
      stream_merge_chunks (Some m) (ContentBlockStopEvent index) =
      match json_loads (or_empty_object s) with
      | inl v =>
          Ok (Some (with_content m
                      (<[index := ToolUseBlock id name v]> (content m))))
      | inr e => Raise (ValueError ("Invalid JSON input: " +:+ e))
      end).
    { simpl. unfold getitem. now rewrite Hb. }
    rewrite Hrun. split; [| split; [| split; [| split]]].
    + intros ->. unfold or_empty_object. simpl. now rewrite Hempty.
    + intros Hs v Hv. now rewrite (or_empty_object_nonempty _ Hs), Hv.
    + intros Hs e He. now rewrite (or_empty_object_nonempty _ Hs), He.
    + intros Hfail.
      destruct (String.eqb_spec s EmptyString) as [-> | Hs].
      * unfold or_empty_object in Hfail. simpl in Hfail.
        rewrite Hempty in Hfail. discriminate.
      * split; [exact Hs |].
        rewrite (or_empty_object_nonempty _ Hs) in Hfail.
        destruct (json_loads s) as [v|e]; [discriminate | eauto].
    + intros [Hs [e He]].
      now rewrite (or_empty_object_nonempty _ Hs), He.
  - intros Hother. simpl. unfold getitem. rewrite Hb. simpl.
    destruct Hother as [Hty | (id & name & input & -> & Hstr)].
    + destruct b as [| | id name input |]; try reflexivity.
      now contradiction Hty.
    + now destruct input.
Qed.

(** ** Request assembly *)

Lemma data_model_tool_schema (dm : BaseModel) :
  _anthropic_tool_schema (schema (data_model_Tool dm)) =
  Ok {| tp_name := "_structured_tool_call";
        tp_input_schema :=
          {| is_type := "object";
             is_properties :=
               Some (PyDict {[ "data" := basemodel_to_param_schema dm ]}) |};
        tp_description := Some "Extract structured data" |}.
Proof.
  unfold _anthropic_tool_schema, data_model_Tool, set_parameters. simpl.
  rewrite lookup_insert_ne by discriminate.
  now rewrite lookup_singleton_eq.
Qed.

Lemma derived_args_lookup (self : AnthropicProvider) (stream : bool)
    (messages : list MessageParam) (tool_schemas : list ToolParam) :
  let d := derived_args self stream messages tool_schemas in
  d !! "stream" = Some (ArgBool stream) /\
  d !! "messages" = Some (ArgMessages messages) /\
  d !! "tools" = Some (ArgTools tool_schemas) /\
  d !! "system" = None /\
  d !! "tool_choice" = None.
Proof.
  unfold derived_args. repeat split;
    repeat (rewrite lookup_insert_ne by discriminate);
    first [ apply lookup_insert_eq
          | apply lookup_singleton_eq
          | now rewrite lookup_singleton_ne by discriminate ].
Qed.

Lemma lookup_set_system_ne (turns : list Turn) (m : gmap string ArgVal)
    (k : string) :
  k <> "system" -> set_system turns m !! k = m !! k.
Proof.
  intros Hk. unfold set_system.
  destruct (m !! "system"); [reflexivity |].
  destruct turns as [|t0 ?]; [reflexivity |].
  destruct (String.eqb (role t0) "system"); [| reflexivity].
  now rewrite lookup_insert_ne.
Qed.

Lemma set_system_present (turns : list Turn) (m : gmap string ArgVal)
    (v : ArgVal) :
  m !! "system" = Some v -> set_system turns m = m.
Proof. intros Hv. unfold set_system. now rewrite Hv. Qed.

Lemma lookup_set_tool_choice_ne (t : option Tool) (m : gmap string ArgVal)
    (k : string) :
  k <> "tool_choice" -> set_tool_choice t m !! k = m !! k.
Proof.
  intros Hk. destruct t; simpl; [| reflexivity].
  now rewrite lookup_insert_ne.
Qed.

(** What a successful assembly returns. *)
Lemma chat_perform_args_inv (self : AnthropicProvider) (stream : bool)
    (turns : list Turn) (tools : list (string * Tool))
    (data_model : option BaseModel) (kwargs : option (gmap string ArgVal))
    (w : list string) (req : gmap string ArgVal) :
  _chat_perform_args self stream turns tools data_model kwargs = (w, Ok req) ->
  exists schemas pseudo messages,
    _as_message_params turns = Ok messages /\
    (match data_model with
     | Some _ => exists ts, pseudo = [ts] /\
                            tp_name ts = "_structured_tool_call"
     | None => pseudo = []
     end) /\
    w = match data_model with
        | Some _ => if stream then [structured_warning] else []
        | None => []
        end /\
    req = set_system turns
            (set_tool_choice (data_model_Tool <$> data_model)
               (default ∅ kwargs ∪
                derived_args self
                  (match data_model with Some _ => false | None => stream end)
                  messages (schemas ++ pseudo))).
Proof.
  unfold _chat_perform_args, wbind, wlift, wret, warn.
  destruct (comprehension _ (tools.*2)) as [schemas|e]; [| discriminate].
  destruct data_model as [dm|].
  - rewrite data_model_tool_schema.
    destruct stream; simpl;
      (destruct (_as_message_params turns) as [messages|e];
         [| discriminate]);
      intros [= <- <-];
      exists schemas,
        [{| tp_name := "_structured_tool_call";
            tp_input_schema :=
              {| is_type := "object";
                 is_properties :=
                   Some (PyDict {[ "data" := basemodel_to_param_schema dm ]}) |};
            tp_description := Some "Extract structured data" |}],
        messages;
      (split; [reflexivity |]);
      (split; [eexists; split; reflexivity |]);
      split; reflexivity.
  - simpl. destruct (_as_message_params turns) as [messages|e];
      [| discriminate].
    intros [= <- <-]. exists schemas, [], messages.
    rewrite app_nil_r. repeat split; reflexivity.
Qed.

(** C6. In every assembled request a caller-supplied override entry
    takes precedence over the derived field of the same key (stream flag,
    messages, model, max_tokens, tools, system), except for [tool_choice]:
    when a data model is requested the entry is the forced choice of the
    extraction pseudo-tool, whatever the overrides say; without a data
    model the caller's [tool_choice] stands. *)
Theorem overrides_win_except_tool_choice (self : AnthropicProvider)
    (stream : bool) (turns : list Turn) (tools : list (string * Tool))
    (data_model : option BaseModel) (kwargs : option (gmap string ArgVal))
    (w : list string) (req : gmap string ArgVal) :
  _chat_perform_args self stream turns tools data_model kwargs = (w, Ok req) ->
  (forall k v, default ∅ kwargs !! k = Some v -> k <> "tool_choice" ->
     req !! k = Some v) /\
  (forall v, data_model = None ->
     default ∅ kwargs !! "tool_choice" = Some v ->
     req !! "tool_choice" = Some v) /\
  (forall dm, data_model = Some dm ->
     req !! "tool_choice" = Some (ArgToolChoice "tool" "_structured_tool_call")).
Proof.
  intros Hrun.
  destruct (chat_perform_args_inv _ _ _ _ _ _ _ _ Hrun)
    as (schemas & pseudo & messages & _ & _ & _ & ->).
  repeat split.
  - intros k v Hk Hne.
    destruct (decide (k = "system")) as [-> | Hsys].
    + match goal with
      | |- set_system _ ?full !! _ = _ =>
          assert (Hfull : full !! "system" = Some v)
      end.
      { rewrite lookup_set_tool_choice_ne by discriminate.
        now rewrite (lookup_union_l' _ _ _ (mk_is_Some _ _ Hk)). }
      now rewrite (set_system_present _ _ _ Hfull).
    + rewrite lookup_set_system_ne by exact Hsys.
      rewrite lookup_set_tool_choice_ne by exact Hne.
      now rewrite (lookup_union_l' _ _ _ (mk_is_Some _ _ Hk)).
  - intros v -> Hv. simpl.
    rewrite lookup_set_system_ne by discriminate.
    now rewrite (lookup_union_l' _ _ _ (mk_is_Some _ _ Hv)).
  - intros dm ->. simpl.
    rewrite lookup_set_system_ne by discriminate.
    apply lookup_insert_eq.
Qed.


(** C4 (amended). When a request is built with a data model and
    [stream] set, exactly one warning is emitted, [tool_choice] forces the
    extraction pseudo-tool, which closes the derived tool list, and the
    derived stream flag is false: the request carries [stream = False]
    unless the caller's overrides hold a [stream] entry, which then
    stands. *)
Theorem structured_extraction_disables_streaming (self : AnthropicProvider)
    (turns : list Turn) (tools : list (string * Tool)) (dm : BaseModel)
    (kwargs : option (gmap string ArgVal)) (w : list string)
    (req : gmap string ArgVal) :
  _chat_perform_args self true turns tools (Some dm) kwargs = (w, Ok req) ->
  w = [structured_warning] /\
  req !! "tool_choice" = Some (ArgToolChoice "tool" "_structured_tool_call") /\
  (default ∅ kwargs !! "stream" = None ->
   req !! "stream" = Some (ArgBool false)) /\
  (forall v, default ∅ kwargs !! "stream" = Some v ->
   req !! "stream" = Some v) /\
  (default ∅ kwargs !! "tools" = None ->
   exists schemas ts,
     req !! "tools" = Some (ArgTools (schemas ++ [ts])) /\
     tp_name ts = "_structured_tool_call").
Proof.
  intros Hrun.
  destruct (chat_perform_args_inv _ _ _ _ _ _ _ _ Hrun)
    as (schemas & pseudo & messages & _ & (ts & -> & Hts) & -> & ->).
  split; [reflexivity |].
  destruct (derived_args_lookup self false messages (schemas ++ [ts]))
    as (Hstream & _ & Htools & _ & _).
  split; [| split; [| split]].
  - rewrite lookup_set_system_ne by discriminate. apply lookup_insert_eq.
  - intros Hnone. rewrite lookup_set_system_ne by discriminate.
    rewrite lookup_set_tool_choice_ne by discriminate.
    now rewrite lookup_union_r.
  - intros v Hv. rewrite lookup_set_system_ne by discriminate.
    rewrite lookup_set_tool_choice_ne by discriminate.
    now rewrite (lookup_union_l' _ _ _ (mk_is_Some _ _ Hv)).
  - intros Hnone. exists schemas, ts. split; [| exact Hts].
    rewrite lookup_set_system_ne by discriminate.
    rewrite lookup_set_tool_choice_ne by discriminate.
    now rewrite lookup_union_r.
Qed.

(** C5. For a turn list that begins with a system turn, the message list
    the request builder maps from the turns never contains that turn: it
    is the list mapped from the remaining turns and holds only [user] and
    [assistant] messages.  This list is the request's [messages]; a
    [messages] entry the caller wrote in the raw overrides stands as
    written, as every override does.  Without a [system] override the
    request's [system] is the leading turn's text; with one, the caller's
    value wins. *)
Theorem leading_system_turn_goes_to_system_field (self : AnthropicProvider)
    (stream : bool) (sys : Turn) (rest : list Turn)
    (tools : list (string * Tool)) (data_model : option BaseModel)
    (kwargs : option (gmap string ArgVal)) (w : list string)
    (req : gmap string ArgVal) :
  role sys = "system" ->
  _chat_perform_args self stream (sys :: rest) tools data_model kwargs
    = (w, Ok req) ->
  (exists msgs,
     _as_message_params (sys :: rest) = Ok msgs /\
     _as_message_params rest = Ok msgs /\
     Forall (fun m => mp_role m = "user" \/ mp_role m = "assistant") msgs /\
     (default ∅ kwargs !! "messages" = None ->
      req !! "messages" = Some (ArgMessages msgs)) /\
     (forall v, default ∅ kwargs !! "messages" = Some v ->
      req !! "messages" = Some v)) /\
  (default ∅ kwargs !! "system" = None ->
   req !! "system" = Some (ArgStr (Turn_text sys))) /\
  (forall v, default ∅ kwargs !! "system" = Some v ->
   req !! "system" = Some v).
Proof.
  intros Hsys Hrun.
  destruct (chat_perform_args_inv _ _ _ _ _ _ _ _ Hrun)
    as (schemas & pseudo & messages & Hmsgs & _ & _ & ->).
  match goal with
  | |- context [derived_args self ?st messages ?ts] =>
      destruct (derived_args_lookup self st messages ts)
        as (_ & Hmessages & _ & Hnosys & _)
  end.
  split; [| split].
  - exists messages. split; [exact Hmsgs |].
    assert (Hrest : _as_message_params rest = Ok messages).
    { rewrite as_message_params_cons in Hmsgs.
      unfold as_message_params_step in Hmsgs. rewrite Hsys in Hmsgs.
      simpl in Hmsgs.
      now destruct (_as_message_params rest). }
    split; [exact Hrest |].
    split; [eapply as_message_params_roles, Hrest |]. split.
    + intros Hnone. rewrite lookup_set_system_ne by discriminate.
      rewrite lookup_set_tool_choice_ne by discriminate.
      now rewrite lookup_union_r.
    + intros v Hv. rewrite lookup_set_system_ne by discriminate.
      rewrite lookup_set_tool_choice_ne by discriminate.
      now rewrite (lookup_union_l' _ _ _ (mk_is_Some _ _ Hv)).
  - intros Hnone. unfold set_system.
    rewrite lookup_set_tool_choice_ne by discriminate.
    rewrite lookup_union_r by exact Hnone. rewrite Hnosys, Hsys. simpl.
    apply lookup_insert_eq.
  - intros v Hv.
    match goal with
    | |- set_system _ ?full !! _ = _ =>
        assert (Hfull : full !! "system" = Some v)
    end.
    { rewrite lookup_set_tool_choice_ne by discriminate.
      now rewrite (lookup_union_l' _ _ _ (mk_is_Some _ _ Hv)). }
    now rewrite (set_system_present _ _ _ Hfull).
Qed.

(** * Further properties of the adapter *)

(** ** One step of the merge *)

Lemma getitem_Ok {A} (l : list A) (i : nat) (x : A) :
  getitem l i = Ok x <-> l !! i = Some x.
Proof.
  unfold getitem. destruct (l !! i); split; intros H;
    (congruence || discriminate).
Qed.

Lemma block_type_insert (l : list ContentBlock) (i : nat)
    (old new : ContentBlock) :
  l !! i = Some old -> block_type new = block_type old ->
  map block_type (<[i := new]> l) = map block_type l.
Proof.
  intros Hi Hty.
  change (map block_type) with (fmap (M := list) block_type).
  rewrite list_fmap_insert, Hty. apply list_insert_id.
  now rewrite list_lookup_fmap, Hi.
Qed.

(** X1. A chunk other than [message_start] never replaces the message:
    its id, model, role and input-token count stay, and the type tags of
    the content blocks stay in place; only [content_block_start] adds a
    block, at the end. *)
Theorem merge_keeps_message_and_block_types (m m' : Message) (chunk : Chunk) :
  is_message_start chunk = false ->
  stream_merge_chunks (Some m) chunk = Ok (Some m') ->
  msg_id m' = msg_id m /\ msg_model m' = msg_model m /\
  msg_role m' = msg_role m /\
  input_tokens (usage m') = input_tokens (usage m) /\
  map block_type (content m') =
    map block_type (content m) ++ started_types chunk.
Proof.
  intros Hstart Hrun.
  destruct chunk as [msg | idx b | idx d | idx | sr ss out |];
    simpl in Hstart, Hrun; try discriminate.
  - injection Hrun as <-. simpl. now rewrite map_app.
  - destruct (getitem (content m) idx) as [b|] eqn:Hb; [| discriminate].
    apply getitem_Ok in Hb. simpl in Hrun. rewrite app_nil_r.
    destruct d as [text | pj]; destruct b as [t | src | id name input | id c e];
      try discriminate; injection Hrun as <-; simpl;
      repeat (split; [reflexivity |]);
      now apply (block_type_insert _ _ _ _ Hb).
  - destruct (getitem (content m) idx) as [b|] eqn:Hb; [| discriminate].
    apply getitem_Ok in Hb. simpl in Hrun. rewrite app_nil_r.
    destruct b as [t | src | id name input | id c e];
      try (injection Hrun as <-; now repeat split).
    destruct input as [| | | s | |];
      try (injection Hrun as <-; now repeat split).
    destruct (json_loads (or_empty_object s)) as [v|e]; [| discriminate].
    injection Hrun as <-. simpl. repeat (split; [reflexivity |]).
    now apply (block_type_insert _ _ _ _ Hb).
  - injection Hrun as <-. simpl. now rewrite app_nil_r.
  - injection Hrun as <-. simpl. now rewrite app_nil_r.
Qed.

(** X2. A delta is merged exactly when its index holds a block that has
    the attribute it extends; out of range it raises [IndexError], on a
    block of the other kind [AttributeError].  A delta never fails on the
    JSON text it carries. *)
Theorem delta_merges_iff_it_fits (m : Message) (index : nat) (d : Delta) :
  (is_ok (stream_merge_chunks (Some m) (ContentBlockDeltaEvent index d))
     = true <->
   exists b, content m !! index = Some b /\ delta_fits d b = true) /\
  (length (content m) <= index <->
   stream_merge_chunks (Some m) (ContentBlockDeltaEvent index d)
     = Raise IndexError) /\
  (forall b, content m !! index = Some b -> delta_fits d b = false ->
   exists attr,
     stream_merge_chunks (Some m) (ContentBlockDeltaEvent index d)
       = Raise (AttributeError attr)).
Proof.
  simpl. unfold getitem.
  destruct (content m !! index) as [b|] eqn:Hb; simpl.
  - apply lookup_lt_Some in Hb as Hlt. split; [| split].
    + split.
      * intros Hok. exists b. split; [reflexivity |].
        destruct d, b; simpl in *; congruence.
      * intros (b' & [= <-] & Hfit). destruct d, b; simpl in *; congruence.
    + split; [lia |]. destruct d, b; discriminate.
    + intros b' [= <-] Hfit. destruct d, b; simpl in *; try discriminate; eauto.
  - apply lookup_ge_None in Hb. split; [| split].
    + split; [discriminate | intros (b & [=] & _)].
    + split; [reflexivity | intros _; exact Hb].
    + intros b [=].
Qed.

(** X3. A completion can only come out of a stream that holds a
    [message_start].  Merged from the empty accumulator, a stream that
    gives a completion has a [message_start] before which there are only
    [message_stop] chunks; and a stream whose first chunk other than a
    [message_stop] is not a [message_start] raises [AttributeError],
    whatever follows. *)
Theorem merged_stream_has_message_start (chunks : list Chunk) :
  (forall m,
     merge_all None chunks = Ok (Some m) ->
     exists pre msg post,
       chunks = pre ++ MessageStartEvent msg :: post /\
       Forall (fun c => is_message_stop c = true) pre) /\
  (forall pre c post,
     chunks = pre ++ c :: post ->
     Forall (fun c => is_message_stop c = true) pre ->
     is_message_start c = false ->
     is_message_stop c = false ->
     exists attr, merge_all None chunks = Raise (AttributeError attr)).
Proof.
  unfold merge_all. split.
  - induction chunks as [|c chunks IH]; [discriminate |].
    intros m.
    destruct c as [msg | idx b | idx d | idx | sr ss out |]; simpl;
      try discriminate.
    + intros _. exists [], msg, chunks. split; [reflexivity | constructor].
    + intros Hrun. destruct (IH _ Hrun) as (pre & msg & post & -> & Hpre).
      exists (MessageStopEvent :: pre), msg, post.
      split; [reflexivity | now constructor].
  - intros pre c post -> Hpre Hstart Hstop.
    induction Hpre as [|c' pre Hc' _ IH].
    + destruct c; try discriminate; simpl; eauto.
    + destruct c'; try discriminate. exact IH.
Qed.

(** X4. Deltas for two different blocks commute: merged in either order
    they give the same accumulator. *)
Theorem deltas_of_distinct_blocks_commute (m : Message) (i j : nat)
    (d1 d2 : Delta) (r : option Message) :
  i <> j ->
  (a <- stream_merge_chunks (Some m) (ContentBlockDeltaEvent i d1) ;;
   stream_merge_chunks a (ContentBlockDeltaEvent j d2)) = Ok r ->
  (a <- stream_merge_chunks (Some m) (ContentBlockDeltaEvent j d2) ;;
   stream_merge_chunks a (ContentBlockDeltaEvent i d1)) = Ok r.
Proof.
  intros Hij. simpl. unfold getitem.
  destruct (content m !! i) as [b1|] eqn:Hi; [| discriminate].
  destruct (content m !! j) as [b2|] eqn:Hj.
  - destruct d1 as [t1 | p1];
      destruct b1 as [x1 | src1 | id1 n1 in1 | id1 c1 e1]; simpl;
      try discriminate;
      rewrite list_lookup_insert_ne, Hj by exact Hij;
      destruct d2 as [t2 | p2];
      destruct b2 as [x2 | src2 | id2 n2 in2 | id2 c2 e2]; simpl;
      try discriminate;
      rewrite list_lookup_insert_ne, Hi by (intros ->; now apply Hij);
      simpl; intros [= <-]; do 2 f_equal; unfold with_content; simpl;
      f_equal; now apply list_insert_insert_ne.
  - destruct d1 as [t1 | p1];
      destruct b1 as [x1 | src1 | id1 n1 in1 | id1 c1 e1]; simpl;
      try discriminate;
      now rewrite list_lookup_insert_ne, Hj by exact Hij.
Qed.

(** X5. The input of a streamed tool call is decoded from the deltas
    alone: after at least one partial-JSON delta the input the block
    started with is gone, the pieces are kept as one undecoded string, and
    the stop event either stores the decoded value or raises
    [ValueError]. *)
Theorem tool_input_comes_from_the_deltas (m : Message)
    (pre : list ContentBlock) (id name : string) (input0 : pyval)
    (p : string) (ps : list string) :
  isinstance_str input0 = false ->
  merge_all (Some (with_content m (pre ++ [ToolUseBlock id name input0])))
    (map (ContentBlockDeltaEvent (length pre))
       (map InputJSONDelta (p :: ps))) =
  Ok (Some (with_content m
              (pre ++ [ToolUseBlock id name (PyStr (join (p :: ps)))]))) /\
  merge_all (Some (with_content m (pre ++ [ToolUseBlock id name input0])))
    (map (ContentBlockDeltaEvent (length pre))
       (map InputJSONDelta (p :: ps)) ++
     [ContentBlockStopEvent (length pre)]) =
  match json_loads (or_empty_object (join (p :: ps))) with
  | inl v => Ok (Some (with_content m (pre ++ [ToolUseBlock id name v])))
  | inr e => Raise (ValueError ("Invalid JSON input: " +:+ e))
  end.
Proof.
  intros Hstr.
  assert (Hdeltas :
    merge_all (Some (with_content m (pre ++ [ToolUseBlock id name input0])))
      (map (ContentBlockDeltaEvent (length pre))
         (map InputJSONDelta (p :: ps))) =
    Ok (Some (with_content m
                (pre ++ [ToolUseBlock id name (PyStr (join (p :: ps)))])))).
  { unfold merge_all.
    cbn [map for_each stream_merge_chunks deref rbind content with_content].
    rewrite getitem_last. cbn [rbind]. rewrite setitem_last.
    replace (match input0 with PyStr s => s | _ => EmptyString end)
      with EmptyString by (now destruct input0).
    fold (merge_all
            (Some (with_content m
               (pre ++ [ToolUseBlock id name (PyStr (EmptyString +:+ p))])))
            (map (ContentBlockDeltaEvent (length pre))
               (map InputJSONDelta ps))).
    rewrite merge_json_deltas. reflexivity. }
  split; [exact Hdeltas |].
  unfold merge_all in *. rewrite for_each_app, Hdeltas.
  cbn [rbind for_each stream_merge_chunks deref content with_content].
  rewrite getitem_last. cbn [rbind].
  destruct (json_loads (or_empty_object (join (p :: ps)))) as [v|e];
    [| reflexivity].
  now rewrite setitem_last.
Qed.

(** ** The whole stream *)

Lemma join_app (l1 l2 : list string) : join (l1 ++ l2) = join l1 +:+ join l2.
Proof.
  unfold join. induction l1 as [|x l1 IH]; [reflexivity |].
  cbn [app foldr]. now rewrite IH, append_assoc.
Qed.

Lemma merge_stream_events (skeleton : Message) (bs : list BlockStream)
    (fin : StreamEnd) (completion : Message) :
  json_loads "{}" = inl (PyDict ∅) ->
  content skeleton = [] ->
  equivalent_completion skeleton bs fin = Some completion ->
  merge_all None (stream_events skeleton bs fin) = Ok (Some completion).
Proof.
  intros Hempty Hskel Heq. unfold equivalent_completion in Heq.
  destruct (mapM completed_block bs) as [blks|] eqn:Hblks; [| discriminate].
  apply mapM_Some in Hblks. simpl in Heq. injection Heq as <-.
  unfold merge_all, stream_events. cbn [for_each stream_merge_chunks rbind].
  rewrite for_each_app.
  pose proof (merge_blocks bs blks Hempty Hblks skeleton []) as Hm.
  rewrite <- Hskel, with_content_same in Hm. rewrite Hskel in Hm.
  unfold merge_all in Hm. simpl length in Hm. rewrite Hm. reflexivity.
Qed.

Lemma stream_text_of_deltas (index : nat) (ds : list Delta) :
  omap stream_text (map (ContentBlockDeltaEvent index) ds) =
  omap (fun d => match d with TextDelta t => Some t | _ => None end) ds.
Proof.
  induction ds as [|d ds IH]; [reflexivity |].
  cbn [map omap list_omap]. rewrite IH. now destruct d.
Qed.

Lemma text_of_text_deltas (pieces : list string) :
  omap (fun d => match d with TextDelta t => Some t | _ => None end)
    (map TextDelta pieces) = pieces.
Proof.
  induction pieces as [|p ps IH]; [reflexivity |].
  cbn [map omap list_omap]. now rewrite IH.
Qed.

Lemma text_of_json_deltas (pieces : list string) :
  omap (fun d => match d with TextDelta t => Some t | _ => None end)
    (map InputJSONDelta pieces) = [].
Proof.
  induction pieces as [|p ps IH]; [reflexivity |].
  cbn [map omap list_omap]. exact IH.
Qed.

Lemma stream_text_of_block (index : nat) (b : BlockStream)
    (blk : ContentBlock) :
  completed_block b = Some blk ->
  join (omap stream_text (block_events index b)) =
  join (omap block_text [blk]).
Proof.
  intros Hblk. unfold block_events.
  cbn [omap list_omap stream_text]. rewrite omap_app.
  rewrite stream_text_of_deltas. cbn [omap list_omap stream_text].
  rewrite app_nil_r.
  destruct b as [pieces | id name pieces]; cbn [block_deltas].
  - rewrite text_of_text_deltas. simpl in Hblk. injection Hblk as <-.
    cbn [omap list_omap block_text]. unfold join at 2. cbn [foldr].
    now rewrite append_nil_r.
  - rewrite text_of_json_deltas. simpl in Hblk.
    destruct (String.eqb (join pieces) EmptyString).
    + now injection Hblk as <-.
    + destruct (json_loads (join pieces)); [| discriminate].
      now injection Hblk as <-.
Qed.

Lemma stream_text_of_blocks (bs : list BlockStream)
    (blks : list ContentBlock) :
  Forall2 (fun b blk => completed_block b = Some blk) bs blks ->
  forall index,
    join (omap stream_text (blocks_events index bs)) =
    join (omap block_text blks).
Proof.
  induction 1 as [|b blk bs blks Hb _ IH]; intros index; [reflexivity |].
  cbn [blocks_events]. rewrite omap_app, join_app.
  rewrite (stream_text_of_block index b blk Hb), (IH (S index)).
  change (blk :: blks) with ([blk] ++ blks).
  now rewrite omap_app, join_app.
Qed.

Lemma as_turn_step_texts (h : bool) (b : ContentBlock) (cs : list Content) :
  as_turn_step h [] b = Ok cs ->
  omap content_text cs = omap block_text [b].
Proof.
  destruct b as [text | src | id name input | id c e]; simpl;
    try (intros [= <-]; reflexivity).
  destruct (h && String.eqb name "_structured_tool_call");
    [| intros [= <-]; reflexivity].
  destruct input as [| | | | |d]; try discriminate.
  destruct (d !! "data"); [intros [= <-]; reflexivity | discriminate].
Qed.

Lemma as_turn_contents_texts (h : bool) (bs : list ContentBlock)
    (cs : list Content) :
  as_turn_contents h bs = Ok cs ->
  omap content_text cs = omap block_text bs.
Proof.
  revert cs. induction bs as [|b bs IH]; intros cs.
  - intros [= <-]. reflexivity.
  - rewrite as_turn_contents_cons.
    destruct (as_turn_step h [] b) as [c1|] eqn:Hb; [| discriminate].
    destruct (as_turn_contents h bs) as [c2|]; [| discriminate].
    simpl. intros [= <-]. rewrite omap_app, (IH c2 eq_refl).
    rewrite (as_turn_step_texts _ _ _ Hb).
    simpl. now destruct (block_text b).
Qed.

(** X6. What [stream_text] showed while the stream was read is what the
    final turn holds: for a stream in arrival order, the texts extracted
    chunk by chunk, joined, are the joined texts of the [ContentText]
    items of the turn that [stream_turn] returns. *)
Theorem streamed_text_is_the_turn_text (skeleton : Message)
    (bs : list BlockStream) (fin : StreamEnd) (completion : Message)
    (has_data_model : bool) (turn : Turn) :
  json_loads "{}" = inl (PyDict ∅) ->
  content skeleton = [] ->
  equivalent_completion skeleton bs fin = Some completion ->
  stream_then_turn (stream_events skeleton bs fin) has_data_model = Ok turn ->
  join (omap stream_text (stream_events skeleton bs fin)) =
  join (omap content_text (contents turn)).
Proof.
  intros Hempty Hskel Heq Hturn.
  unfold stream_then_turn in Hturn.
  rewrite (merge_stream_events _ _ _ _ Hempty Hskel Heq) in Hturn.
  simpl in Hturn. unfold stream_turn, _as_turn in Hturn.
  destruct (as_turn_contents has_data_model (content completion))
    as [cs|] eqn:Hcs; [| discriminate].
  simpl in Hturn. injection Hturn as <-. simpl.
  rewrite (as_turn_contents_texts _ _ _ Hcs).
  unfold equivalent_completion in Heq.
  destruct (mapM completed_block bs) as [blks|] eqn:Hblks; [| discriminate].
  apply mapM_Some in Hblks. simpl in Heq. injection Heq as <-. simpl.
  unfold stream_events. cbn [omap list_omap stream_text].
  rewrite omap_app, join_app.
  rewrite (stream_text_of_blocks bs blks Hblks 0).
  simpl. now rewrite append_nil_r.
Qed.

(** X7. The token pair of a streamed turn takes the input count from the
    [message_start] skeleton and the output count from the
    [message_delta]; the turn keeps the merged completion as its raw
    payload and has role [assistant]. *)
Theorem streamed_turn_tokens (skeleton : Message) (bs : list BlockStream)
    (fin : StreamEnd) (completion : Message) (has_data_model : bool)
    (turn : Turn) :
  json_loads "{}" = inl (PyDict ∅) ->
  content skeleton = [] ->
  equivalent_completion skeleton bs fin = Some completion ->
  stream_then_turn (stream_events skeleton bs fin) has_data_model = Ok turn ->
  tokens turn =
    Some (input_tokens (usage skeleton), end_output_tokens fin) /\
  stop_reason completion = end_stop_reason fin /\
  json turn = Some completion /\
  role turn = "assistant".
Proof.
  intros Hempty Hskel Heq Hturn.
  unfold stream_then_turn in Hturn.
  rewrite (merge_stream_events _ _ _ _ Hempty Hskel Heq) in Hturn.
  simpl in Hturn. unfold stream_turn, _as_turn in Hturn.
  destruct (as_turn_contents has_data_model (content completion))
    as [cs|]; [| discriminate].
  simpl in Hturn. injection Hturn as <-. simpl.
  unfold equivalent_completion in Heq.
  destruct (mapM completed_block bs) as [blks|]; [| discriminate].
  simpl in Heq. injection Heq as <-. simpl. repeat split.
Qed.

(** ** Canonicalization as a whole *)

Lemma as_turn_step_canonical (h : bool) (b : ContentBlock) :
  as_turn_step h [] b =
  if failed_extraction h b
  then Raise (ValueError
         (match b with
          | ToolUseBlock _ _ (PyDict _) =>
              "Expected data extraction tool to return a 'data' field."
          | _ => "Expected data extraction tool to return a dictionary."
          end))
  else Ok (omap (canonical_content h) [b]).
Proof.
  destruct b as [text | src | id name input | id c e]; try reflexivity.
  unfold failed_extraction. simpl.
  destruct (h && String.eqb name "_structured_tool_call"); simpl;
    [| reflexivity].
  destruct input as [| | | | |d]; try reflexivity.
  now destruct (d !! "data").
Qed.

(** X8. Canonicalization fails only on an extraction call without a usable
    [data] value: without one, the contents are the blocks' content
    items in order and the call returns; with one, it raises
    [ValueError]. *)
Theorem as_turn_fails_only_on_failed_extraction (completion : Message)
    (has_data_model : bool) :
  (existsb (failed_extraction has_data_model) (content completion) = false ->
   _as_turn completion has_data_model =
   Ok {| role := "assistant";
         contents :=
           omap (canonical_content has_data_model) (content completion);
         json := Some completion;
         tokens := Some (input_tokens (usage completion),
                         output_tokens (usage completion)) |}) /\
  (existsb (failed_extraction has_data_model) (content completion) = true ->
   exists msg, _as_turn completion has_data_model = Raise (ValueError msg)) /\
  (has_data_model = false ->
   existsb (failed_extraction has_data_model) (content completion) = false).
Proof.
  assert (Hgood : forall bs,
    existsb (failed_extraction has_data_model) bs = false ->
    as_turn_contents has_data_model bs =
    Ok (omap (canonical_content has_data_model) bs)).
  { induction bs as [|b bs IH]; [reflexivity |].
    cbn [existsb]. intros Hex. apply orb_false_iff in Hex as [Hb Hbs].
    rewrite as_turn_contents_cons, as_turn_step_canonical, Hb, (IH Hbs).
    simpl. now destruct (canonical_content has_data_model b). }
  split; [| split].
  - intros Hex. unfold _as_turn. now rewrite (Hgood _ Hex).
  - intros Hex. unfold _as_turn.
    destruct (as_turn_contents has_data_model (content completion))
      as [cs|e] eqn:Hcs.
    + exfalso. revert cs Hcs Hex. generalize (content completion) as bs.
      induction bs as [|b bs IH]; intros cs Hcs Hex; [discriminate |].
      rewrite as_turn_contents_cons, as_turn_step_canonical in Hcs.
      cbn [existsb] in Hex.
      destruct (failed_extraction has_data_model b); [discriminate |].
      simpl in Hex, Hcs.
      destruct (as_turn_contents has_data_model bs) as [c2|]; [| discriminate].
      now apply (IH c2).
    + simpl. destruct (as_turn_contents_raises _ _ _ Hcs) as [msg ->]. eauto.
  - intros ->. induction (content completion) as [|b bs IH]; [reflexivity |].
    cbn [existsb]. rewrite IH, orb_false_r. now destruct b.
Qed.

(** ** Content blocks and messages of a request *)

Lemma comprehension_content_blocks (cs : list Content) :
  (existsb is_remote_image cs = false ->
   exists blocks,
     comprehension _as_content_block cs = Ok blocks /\
     map block_type blocks = map vendor_type cs) /\
  (existsb is_remote_image cs = true ->
   exists msg,
     comprehension _as_content_block cs = Raise (NotImplementedError msg)).
Proof.
  induction cs as [|c cs [IHok IHbad]].
  - split; [intros _; exists []; now split | discriminate].
  - cbn [existsb comprehension]. split.
    + intros Hex. apply orb_false_iff in Hex as [Hc Hcs].
      destruct (IHok Hcs) as (blocks & -> & Htypes).
      destruct c; simpl in Hc; try discriminate; simpl;
        eexists; (split; [reflexivity |]); simpl; now rewrite Htypes.
    + intros Hex. destruct (is_remote_image c) eqn:Hc.
      * destruct c; try discriminate. simpl. eauto.
      * simpl in Hex. destruct (IHbad Hex) as [msg ->].
        destruct c; simpl in Hc; try discriminate; simpl; eauto.
Qed.

(** X9. Mapping a content list to vendor blocks fails only on a remote
    image, with [NotImplementedError]; otherwise it gives one block per
    item, in order, each of the type of its item's kind. *)
Theorem content_blocks_fail_only_on_remote_image (cs : list Content) :
  (existsb is_remote_image cs = false ->
   exists blocks,
     comprehension _as_content_block cs = Ok blocks /\
     map block_type blocks = map vendor_type cs) /\
  (existsb is_remote_image cs = true ->
   exists msg,
     comprehension _as_content_block cs = Raise (NotImplementedError msg)).
Proof.
  destruct (comprehension_content_blocks cs) as [Hgood Hremote].
  split; [exact Hgood | exact Hremote].
Qed.

Lemma as_message_params_step_mappable (t : Turn) :
  (mappable t = true ->
   exists blocks,
     (is_system t = true \/
      (is_system t = false /\
       comprehension _as_content_block (contents t) = Ok blocks /\
       map block_type blocks = map vendor_type (contents t))) /\
     as_message_params_step [] t =
     Ok (if is_system t then []
         else [{| mp_role := role t; mp_content := blocks |}])) /\
  (mappable t = false -> is_ok (as_message_params_step [] t) = false).
Proof.
  unfold mappable, is_system, as_message_params_step.
  destruct (String.eqb (role t) "system") eqn:Hsys; simpl.
  - split; [intros _; exists []; split; [now left | reflexivity]
           | discriminate].
  - destruct (String.eqb_spec (role t) "user") as [Hu | Hu];
      [| destruct (String.eqb_spec (role t) "assistant") as [Ha | Ha]];
      simpl.
    + split.
      * intros Hrem. apply negb_true_iff in Hrem.
        destruct (proj1 (comprehension_content_blocks _) Hrem)
          as (blocks & Hblocks & Htypes).
        exists blocks. rewrite Hblocks, ?Hu. simpl.
        split; [right; now repeat split | reflexivity].
      * intros Hrem. apply negb_false_iff in Hrem.
        destruct (proj2 (comprehension_content_blocks _) Hrem)
          as (msg & ->). reflexivity.
    + split.
      * intros Hrem. apply negb_true_iff in Hrem.
        destruct (proj1 (comprehension_content_blocks _) Hrem)
          as (blocks & Hblocks & Htypes).
        exists blocks. rewrite Hblocks, ?Ha. simpl.
        split; [right; now repeat split | reflexivity].
      * intros Hrem. apply negb_false_iff in Hrem.
        destruct (proj2 (comprehension_content_blocks _) Hrem)
          as (msg & ->). reflexivity.
    + split; [discriminate | reflexivity].
Qed.

Lemma as_message_params_ok (turns : list Turn) :
  is_ok (_as_message_params turns) = forallb mappable turns.
Proof.
  induction turns as [|t turns IH]; [reflexivity |].
  rewrite as_message_params_cons. cbn [forallb].
  destruct (mappable t) eqn:Hm.
  - destruct (proj1 (as_message_params_step_mappable t) Hm)
      as (blocks & _ & ->). simpl. rewrite <- IH.
    now destruct (_as_message_params turns).
  - pose proof (proj2 (as_message_params_step_mappable t) Hm) as Hbad.
    now destruct (as_message_params_step [] t).
Qed.

Lemma as_message_params_shape (turns : list Turn) :
  is_ok (_as_message_params turns) = forallb mappable turns /\
  (forall msgs, _as_message_params turns = Ok msgs ->
   map mp_role msgs =
     map role (filter (fun t => is_system t = false) turns) /\
   map (fun m => map block_type (mp_content m)) msgs =
     map (fun t => map vendor_type (contents t))
       (filter (fun t => is_system t = false) turns)).
Proof.
  split; [apply as_message_params_ok |].
  induction turns as [|t turns IH]; intros msgs.
  - intros [= <-]. now split.
  - intros Hrun.
    assert (Hm : mappable t = true).
    { pose proof (as_message_params_ok (t :: turns)) as Hok.
      rewrite Hrun in Hok. cbn [is_ok forallb] in Hok.
      symmetry in Hok. now apply andb_true_iff in Hok as [? _]. }
    rewrite as_message_params_cons in Hrun.
    destruct (proj1 (as_message_params_step_mappable t) Hm)
      as (blocks & Hcase & Hstep).
    rewrite Hstep in Hrun. simpl in Hrun.
    destruct (_as_message_params turns) as [rest|]; [| discriminate].
    injection Hrun as <-. destruct (IH rest eq_refl) as [IHr IHc].
    rewrite filter_cons.
    destruct Hcase as [Hsys | (Hsys & _ & Htypes)]; rewrite Hsys.
    + rewrite decide_False by discriminate. now split.
    + rewrite decide_True by reflexivity. simpl. now rewrite IHr, IHc, Htypes.
Qed.

(** X10. The turns are mapped exactly when every turn is a system turn or
    a user or assistant turn without a remote image; the contents of a
    system turn are never looked at.  The messages then follow the turns
    that are not system turns, one by one: same roles, and for each
    content item a block of its kind. *)
Theorem message_params_follow_the_turns (turns : list Turn) :
  is_ok (_as_message_params turns) = forallb mappable turns /\
  (forall msgs, _as_message_params turns = Ok msgs ->
   map mp_role msgs =
     map role (filter (fun t => is_system t = false) turns) /\
   map (fun m => map block_type (mp_content m)) msgs =
     map (fun t => map vendor_type (contents t))
       (filter (fun t => is_system t = false) turns)).
Proof.
  split; [apply as_message_params_ok |].
  intros msgs Hmsgs. exact (proj2 (as_message_params_shape turns) msgs Hmsgs).
Qed.

(** ** Tool schemas *)

(** X11. The vendor schema of a tool reads nothing of the tool's
    parameters but [properties]: changing any other key ([type],
    [required], ...) changes nothing.  The translation raises [KeyError]
    exactly when parameters are given without [properties]; otherwise the
    name and the description are those of the tool and the schema type is
    [object]. *)
Theorem tool_schema_reads_only_properties (fn : FunctionDefinition) :
  (forall parameters k v, k <> "properties" ->
     _anthropic_tool_schema (with_parameters fn (<[k := v]> parameters)) =
     _anthropic_tool_schema (with_parameters fn parameters)) /\
  (is_ok (_anthropic_tool_schema {| function := fn |})
     = has_properties {| function := fn |}) /\
  (has_properties {| function := fn |} = false ->
   _anthropic_tool_schema {| function := fn |} = Raise (KeyError "properties"))
  /\
  (forall tp, _anthropic_tool_schema {| function := fn |} = Ok tp ->
     tp_name tp = fn_name fn /\ tp_description tp = fn_description fn /\
     is_type (tp_input_schema tp) = "object" /\
     is_properties (tp_input_schema tp) =
       (fn_parameters fn ≫= fun parameters => parameters !! "properties")).
Proof.
  split; [| split; [| split]].
  - intros parameters k v Hk. unfold _anthropic_tool_schema. simpl.
    now rewrite lookup_insert_ne.
  - unfold _anthropic_tool_schema, has_properties. simpl.
    destruct (fn_parameters fn) as [parameters|]; [| reflexivity].
    now destruct (parameters !! "properties").
  - unfold _anthropic_tool_schema, has_properties. simpl.
    destruct (fn_parameters fn) as [parameters|]; [| discriminate].
    now destruct (parameters !! "properties").
  - intros tp. unfold _anthropic_tool_schema. simpl.
    destruct (fn_parameters fn) as [parameters|]; simpl.
    + destruct (parameters !! "properties"); [| discriminate].
      intros [= <-]. now repeat split.
    + intros [= <-]. now repeat split.
Qed.

(** ** The request as a whole *)

(** The assembly, step by step: the tool schemas first, then the warning,
    then the messages. *)
Lemma chat_perform_args_run (self : AnthropicProvider) (stream : bool)
    (turns : list Turn) (tools : list (string * Tool))
    (data_model : option BaseModel) (kwargs : option (gmap string ArgVal)) :
  _chat_perform_args self stream turns tools data_model kwargs =
  match comprehension (fun tool => _anthropic_tool_schema (schema tool))
          (tools.*2) with
  | Raise e => ([], Raise e)
  | Ok schemas =>
      (match data_model with
       | Some _ => if stream then [structured_warning] else []
       | None => []
       end,
       match _as_message_params turns with
       | Raise e => Raise e
       | Ok messages =>
           Ok (set_system turns
                 (set_tool_choice (data_model_Tool <$> data_model)
                    (default ∅ kwargs ∪
                     derived_args self
                       (match data_model with
                        | Some _ => false
                        | None => stream
                        end)
                       messages
                       (schemas ++
                        match data_model with
                        | Some dm =>
                            [extraction_tool_param
                               (basemodel_to_param_schema dm)]
                        | None => []
                        end))))
       end)
  end.
Proof.
  unfold _chat_perform_args, wbind, wlift, wret, warn.
  destruct (comprehension _ (tools.*2)) as [schemas|e]; [| reflexivity].
  destruct data_model as [dm|].
  - rewrite data_model_tool_schema. fold (extraction_tool_param
      (basemodel_to_param_schema dm)).
    destruct stream; simpl;
      now destruct (_as_message_params turns).
  - simpl. rewrite app_nil_r. now destruct (_as_message_params turns).
Qed.

Lemma tool_schemas_ok (schemas : list ChatCompletionToolParam) :
  is_ok (comprehension _anthropic_tool_schema schemas)
    = forallb has_properties schemas /\
  (forall tps, comprehension _anthropic_tool_schema schemas = Ok tps ->
     map tp_name tps = map (fun sc => fn_name (function sc)) schemas).
Proof.
  induction schemas as [|sc schemas [IHok IHnames]]; [split; [reflexivity |] |].
  - intros tps [= <-]. reflexivity.
  - cbn [comprehension forallb].
    unfold _anthropic_tool_schema at 1 3, has_properties at 1.
    destruct (fn_parameters (function sc)) as [parameters|]; simpl.
    + destruct (parameters !! "properties"); simpl.
      * destruct (comprehension _anthropic_tool_schema schemas) as [rest|];
          simpl in *; split; try exact IHok; try discriminate.
        intros tps [= <-]. simpl. now rewrite (IHnames rest eq_refl).
      * split; [reflexivity | discriminate].
    + destruct (comprehension _anthropic_tool_schema schemas) as [rest|];
        simpl in *; split; try exact IHok; try discriminate.
      intros tps [= <-]. simpl. now rewrite (IHnames rest eq_refl).
Qed.

(** X12. A request without a data model is built exactly when every
    tool schema that has parameters has [properties] among them and no
    turn holds a remote image; neither the stream flag nor the caller's
    overrides change that. *)
Theorem plain_request_is_built_iff (self : AnthropicProvider) (stream : bool)
    (turns : list Turn) (tools : list (string * Tool))
    (kwargs : option (gmap string ArgVal)) :
  is_ok (_chat_perform_args self stream turns tools None kwargs).2 =
  forallb (fun tool => has_properties (schema tool)) (tools.*2) &&
  forallb mappable turns.
Proof.
  rewrite chat_perform_args_run.
  change (comprehension (fun tool => _anthropic_tool_schema (schema tool))
            (tools.*2))
    with (comprehension (fun tool => _anthropic_tool_schema (schema tool))
            (snd <$> tools)).
  assert (Hcomp : forall l : list Tool,
    comprehension (fun tool => _anthropic_tool_schema (schema tool)) l =
    comprehension _anthropic_tool_schema (map schema l)).
  { induction l as [|t l IH]; [reflexivity |]. simpl. now rewrite IH. }
  assert (Hall : forall l : list Tool,
    forallb (fun tool => has_properties (schema tool)) l =
    forallb has_properties (map schema l)).
  { induction l as [|t l IH]; [reflexivity |]. simpl. now rewrite IH. }
  rewrite Hcomp, Hall.
  rewrite <- (proj1 (tool_schemas_ok _)), <- as_message_params_ok.
  destruct (comprehension _anthropic_tool_schema (map schema (tools.*2)));
    [| reflexivity].
  simpl. now destruct (_as_message_params turns).
Qed.

(** X13. The warning comes before the turns are mapped: with a data model
    and [stream] set, a request that fails on its turns has still emitted
    the warning, while one that fails on a tool schema has emitted
    none. *)
Theorem warning_precedes_message_failure (self : AnthropicProvider)
    (stream : bool) (turns : list Turn) (tools : list (string * Tool))
    (data_model : option BaseModel) (kwargs : option (gmap string ArgVal))
    (e : exn) :
  (forall dm schemas,
     data_model = Some dm -> stream = true ->
     comprehension (fun tool => _anthropic_tool_schema (schema tool))
       (tools.*2) = Ok schemas ->
     _as_message_params turns = Raise e ->
     _chat_perform_args self stream turns tools data_model kwargs =
     ([structured_warning], Raise e)) /\
  (comprehension (fun tool => _anthropic_tool_schema (schema tool))
     (tools.*2) = Raise e ->
   _chat_perform_args self stream turns tools data_model kwargs =
   ([], Raise e)).
Proof.
  split.
  - intros dm schemas -> -> Hschemas Hturns.
    now rewrite chat_perform_args_run, Hschemas, Hturns.
  - intros Hschemas. now rewrite chat_perform_args_run, Hschemas.
Qed.


(** X15. The keys of a request are the caller's override keys, the five
    derived keys, [tool_choice] when a data model is given, and [system]
    when the first turn is a system turn; there is no other key. *)
Theorem request_keys (self : AnthropicProvider) (stream : bool)
    (turns : list Turn) (tools : list (string * Tool))
    (data_model : option BaseModel) (kwargs : option (gmap string ArgVal))
    (w : list string) (req : gmap string ArgVal) :
  _chat_perform_args self stream turns tools data_model kwargs = (w, Ok req) ->
  dom req =
    dom (default ∅ kwargs) ∪ derived_keys ∪
    (match data_model with Some _ => {[ "tool_choice" ]} | None => ∅ end) ∪
    (if starts_with_system turns then {[ "system" ]} else ∅).
Proof.
  clear json_loads.
  rewrite chat_perform_args_run.
  destruct (comprehension _ (tools.*2)) as [schemas|]; [| discriminate].
  destruct (_as_message_params turns) as [messages|]; [| discriminate].
  intros [= <- <-].
  match goal with
  | |- context [derived_args self ?st messages ?ts] =>
      assert (Hderived : dom (derived_args self st messages ts) = derived_keys)
  end.
  { unfold derived_args, derived_keys.
    rewrite !dom_insert_L, dom_singleton_L. set_solver. }
  match goal with
  | |- dom (set_system turns ?full) = _ =>
      assert (Hfull : dom full =
                dom (default ∅ kwargs) ∪ derived_keys ∪
                (match data_model with
                 | Some _ => {[ "tool_choice" ]}
                 | None => ∅
                 end))
  end.
  { destruct data_model; simpl.
    - rewrite dom_insert_L, dom_union_L, Hderived. set_solver.
    - rewrite dom_union_L, Hderived. set_solver. }
  unfold set_system, starts_with_system, is_system.
  match goal with
  | |- dom (match ?full !! "system" with _ => _ end) = _ =>
      destruct (full !! "system") as [v|] eqn:Hsys
  end.
  - rewrite Hfull. apply mk_is_Some, elem_of_dom in Hsys.
    rewrite Hfull in Hsys.
    destruct turns as [|t0 ?]; [set_solver |].
    destruct (String.eqb (role t0) "system"); set_solver.
  - destruct turns as [|t0 ?]; [set_solver |].
    destruct (String.eqb (role t0) "system");
      [rewrite dom_insert_L |]; set_solver.
Qed.


End Adapter.

(** ** Client arguments *)

(** X17. The vendor clients are given every named credential argument,
    [None] included, and the caller's [kwargs] win over them: an entry of
    [kwargs] is passed as it is, each named argument ([api_key]; the five
    AWS arguments and [base_url] for Bedrock) is passed under its own key
    when [kwargs] does not hold that key, and no other key is passed. *)
Theorem client_args_overrides (api_key aws_secret_key aws_access_key
    aws_region aws_profile aws_session_token base_url : option string)
    (kwargs : option (gmap string pyval)) :
  (forall k v, default ∅ kwargs !! k = Some v ->
     anthropic_client_args api_key kwargs !! k = Some v /\
     bedrock_client_args aws_secret_key aws_access_key aws_region
       aws_profile aws_session_token base_url kwargs !! k = Some v) /\
  (default ∅ kwargs !! "api_key" = None ->
   anthropic_client_args api_key kwargs !! "api_key"
     = Some (optional_str api_key)) /\
  dom (anthropic_client_args api_key kwargs)
    = dom (default ∅ kwargs) ∪ {[ "api_key" ]} /\
  dom (bedrock_client_args aws_secret_key aws_access_key aws_region
         aws_profile aws_session_token base_url kwargs)
    = dom (default ∅ kwargs) ∪ bedrock_keys /\
  (default ∅ kwargs !! "aws_secret_key" = None ->
   bedrock_client_args aws_secret_key aws_access_key aws_region
     aws_profile aws_session_token base_url kwargs !! "aws_secret_key"
     = Some (optional_str aws_secret_key)) /\
  (default ∅ kwargs !! "aws_access_key" = None ->
   bedrock_client_args aws_secret_key aws_access_key aws_region
     aws_profile aws_session_token base_url kwargs !! "aws_access_key"
     = Some (optional_str aws_access_key)) /\
  (default ∅ kwargs !! "aws_region" = None ->
   bedrock_client_args aws_secret_key aws_access_key aws_region
     aws_profile aws_session_token base_url kwargs !! "aws_region"
     = Some (optional_str aws_region)) /\
  (default ∅ kwargs !! "aws_profile" = None ->
   bedrock_client_args aws_secret_key aws_access_key aws_region
     aws_profile aws_session_token base_url kwargs !! "aws_profile"
     = Some (optional_str aws_profile)) /\
  (default ∅ kwargs !! "aws_session_token" = None ->
   bedrock_client_args aws_secret_key aws_access_key aws_region
     aws_profile aws_session_token base_url kwargs !! "aws_session_token"
     = Some (optional_str aws_session_token)) /\
  (default ∅ kwargs !! "base_url" = None ->
   bedrock_client_args aws_secret_key aws_access_key aws_region
     aws_profile aws_session_token base_url kwargs !! "base_url"
     = Some (optional_str base_url)).
Proof.
  unfold anthropic_client_args, bedrock_client_args, bedrock_keys.
  split; [| split; [| split; [| split]]].
  - intros k v Hk.
    split; now rewrite (lookup_union_l' _ _ _ (mk_is_Some _ _ Hk)).
  - intros Hnone. rewrite lookup_union_r by exact Hnone.
    apply lookup_singleton_eq.
  - now rewrite dom_union_L, dom_singleton_L.
  - rewrite dom_union_L, !dom_insert_L, dom_singleton_L. set_solver.
  - repeat split; intros Hnone; rewrite lookup_union_r by exact Hnone;
      rewrite ?lookup_insert_ne by discriminate;
      first [apply lookup_insert_eq | apply lookup_singleton_eq].
Qed.

(** * The TypedDict generator *)

Section TypedDictGeneratorProperties.

Variable PyType : Type.
Variable Any : PyType.
Variable get_type_string : PyType -> string * gset string.

Lemma overload_step_flag (excluded_fields : option (gset string))
    (class_name : string) (typeddicts : list string)
    (all_imports : gset string) (o : Callable PyType) :
  overload_step PyType Any get_type_string excluded_fields
    (class_name, typeddicts, all_imports) o =
  match overload_flag o with
  | None => (class_name, typeddicts, all_imports)
  | Some flag =>
      (suffixed class_name flag,
       typeddicts ++
         [(create_typeddict_for_method PyType Any get_type_string o
             (suffixed class_name flag) excluded_fields).1],
       all_imports ∪
         (create_typeddict_for_method PyType Any get_type_string o
            (suffixed class_name flag) excluded_fields).2)
  end.
Proof.
  unfold overload_step, overload_flag.
  destruct (find _ (parameters o)) as [stream|]; [| reflexivity]. simpl.
  destruct (stream_flag stream) as [flag|]; [| reflexivity].
  unfold suffixed.
  now destruct (create_typeddict_for_method PyType Any get_type_string o _ _).
Qed.

(** The loop sees only the overloads that have a stream flag. *)
Lemma overload_loop_flagged (excluded_fields : option (gset string))
    (overloads : list (Callable PyType)) :
  forall st,
    fold_left (overload_step PyType Any get_type_string excluded_fields)
      overloads st =
    fold_left
      (fun '(class_name, typeddicts, all_imports) '(o, flag) =>
         (suffixed class_name flag,
          typeddicts ++
            [(create_typeddict_for_method PyType Any get_type_string o
                (suffixed class_name flag) excluded_fields).1],
          all_imports ∪
            (create_typeddict_for_method PyType Any get_type_string o
               (suffixed class_name flag) excluded_fields).2))
      (flagged_overloads overloads) st.
Proof.
  induction overloads as [|o overloads IH]; intros [[cn tds] imps];
    [reflexivity |].
  cbn [fold_left flagged_overloads omap list_omap].
  rewrite overload_step_flag.
  destruct (overload_flag o) as [flag|]; cbn [fold_left]; apply IH.
Qed.

Lemma overload_loop_length (excluded_fields : option (gset string))
    (flagged : list (Callable PyType * bool)) :
  forall st,
    length (fold_left
      (fun '(class_name, typeddicts, all_imports) '(o, flag) =>
         (suffixed class_name flag,
          typeddicts ++
            [(create_typeddict_for_method PyType Any get_type_string o
                (suffixed class_name flag) excluded_fields).1],
          all_imports ∪
            (create_typeddict_for_method PyType Any get_type_string o
               (suffixed class_name flag) excluded_fields).2))
      flagged st).1.2 = length st.1.2 + length flagged.
Proof.
  induction flagged as [|[o flag] flagged IH]; intros [[cn tds] imps].
  - simpl. lia.
  - cbn [fold_left]. rewrite IH. simpl. rewrite length_app. simpl. lia.
Qed.

(** X18. The generator returns exactly when two of the overloads have a
    stream flag (a [stream] parameter whose default is a [bool] or whose
    annotation spells [Literal[True]] or [Literal[False]]); it raises
    [ValueError] when there is no overload at all, and when the flagged
    overloads are not two, telling how many it found. *)
Theorem overloads_need_two_stream_flags (method_name : string)
    (overloads : list (Callable PyType)) (class_name : string)
    (excluded_fields : option (gset string)) :
  is_ok (create_typeddicts_for_overloaded_method PyType Any get_type_string
           method_name overloads class_name excluded_fields)
    = (length (flagged_overloads overloads) =? 2)%nat /\
  (overloads = [] ->
   create_typeddicts_for_overloaded_method PyType Any get_type_string
     method_name overloads class_name excluded_fields =
   Raise (ValueError ("Method " +:+ method_name +:+ " has no overloads"))) /\
  (overloads <> [] -> length (flagged_overloads overloads) <> 2 ->
   create_typeddicts_for_overloaded_method PyType Any get_type_string
     method_name overloads class_name excluded_fields =
   Raise (ValueError
     ("Expected to find 2 stream=True/False overloads for method "
      +:+ method_name +:+ " but found "
      +:+ str_of_nat (length (flagged_overloads overloads))))).
Proof.
  destruct overloads as [|o overloads].
  - split; [reflexivity |]. split; [reflexivity | congruence].
  - unfold create_typeddicts_for_overloaded_method.
    rewrite overload_loop_flagged.
    set (flagged := flagged_overloads (o :: overloads)).
    pose proof (overload_loop_length excluded_fields flagged
                  (class_name, [], ∅)) as Hlen.
    destruct (fold_left _ flagged _) as [[cn tds] imps].
    cbn [fst snd length Nat.add] in Hlen. rewrite Hlen.
    destruct (Nat.eqb_spec (length flagged) 2) as [Htwo | Hnot];
      cbn [negb is_ok].
    + split; [reflexivity |]. split; [discriminate | congruence].
    + split; [reflexivity |]. split; [discriminate | reflexivity].
Qed.

(** X19. The class name is extended in place: with two flagged
    overloads, the first class is named with the suffix of its own flag
    and the second with the suffixes of both, so when the streaming
    overload comes first both classes bear the [Stream] suffix.  The code
    is the two classes separated by a blank line, and the imports are the
    union of theirs; overloads without a stream flag play no part. *)
Theorem overload_class_names_accumulate (method_name : string)
    (overloads : list (Callable PyType)) (class_name : string)
    (excluded_fields : option (gset string))
    (o1 o2 : Callable PyType) (flag1 flag2 : bool) :
  flagged_overloads overloads = [(o1, flag1); (o2, flag2)] ->
  create_typeddicts_for_overloaded_method PyType Any get_type_string
    method_name overloads class_name excluded_fields =
  Ok ((create_typeddict_for_method PyType Any get_type_string o1
         (suffixed class_name flag1) excluded_fields).1
      +:+ (newline +:+ newline) +:+
      (create_typeddict_for_method PyType Any get_type_string o2
         (suffixed (suffixed class_name flag1) flag2) excluded_fields).1,
      (create_typeddict_for_method PyType Any get_type_string o1
         (suffixed class_name flag1) excluded_fields).2 ∪
      (create_typeddict_for_method PyType Any get_type_string o2
         (suffixed (suffixed class_name flag1) flag2) excluded_fields).2).
Proof.
  intros Hflagged.
  destruct overloads as [|o overloads]; [discriminate |].
  unfold create_typeddicts_for_overloaded_method.
  rewrite overload_loop_flagged, Hflagged. cbn [fold_left app length].
  cbn [Nat.eqb negb String.concat]. now rewrite (left_id_L ∅ (∪)).
Qed.

(** The generated code is the header line, then the field lines. *)
Lemma create_typeddict_for_method_code (method : Callable PyType)
    (class_name : string) (excluded_fields : option (gset string)) :
  create_typeddict_for_method PyType Any get_type_string method class_name
    excluded_fields =
  ("class " +:+ class_name +:+ "(TypedDict, total=False):" +:+ newline
   +:+ field_lines PyType get_type_string
         (kept_annotations PyType Any method excluded_fields),
   field_imports PyType get_type_string
     (kept_annotations PyType Any method excluded_fields)).
Proof.
  unfold create_typeddict_for_method.
  generalize (kept_annotations PyType Any method excluded_fields) as l.
  assert (Hfold : forall l code imports,
    fold_left
      (fun '(code, imports) '(param_name, param_type) =>
         let '(type_str, new_imports) := get_type_string param_type in
         (code +:+ "    " +:+ param_name +:+ ": " +:+ type_str +:+ newline,
          imports ∪ new_imports))
      l (code, imports) =
    (code +:+ field_lines PyType get_type_string l,
     imports ∪ field_imports PyType get_type_string l)).
  { induction l as [|[name ty] l IH]; intros code imports.
    - simpl. now rewrite append_nil_r, (right_id_L ∅ (∪)).
    - cbn [fold_left field_lines field_imports foldr].
      destruct (get_type_string ty) as [type_str new_imports] eqn:Hty.
      rewrite IH. cbn [fst snd].
      now rewrite append_assoc, (assoc_L (∪)). }
  intros l. rewrite Hfold, (left_id_L ∅ (∪)).
  now rewrite !append_assoc.
Qed.

(** X20. A generated class lists exactly the parameters that can be passed
    by keyword and are not excluded, each with its type hint ([Any] when it
    has none), in signature order and once per parameter; positional-only,
    [*args] and [**kwargs] parameters and excluded fields never appear.
    The class name enters through the header line only: under another
    class name the field lines and the imports are the same. *)
Theorem typeddict_lists_the_kept_parameters (method : Callable PyType)
    (class_name : string) (excluded_fields : option (gset string)) :
  create_typeddict_for_method PyType Any get_type_string method class_name
    excluded_fields =
  ("class " +:+ class_name +:+ "(TypedDict, total=False):" +:+ newline
   +:+ field_lines PyType get_type_string
         (kept_annotations PyType Any method excluded_fields),
   field_imports PyType get_type_string
     (kept_annotations PyType Any method excluded_fields)) /\
  (forall name ty,
     (name, ty) ∈ kept_annotations PyType Any method excluded_fields <->
     exists param,
       param ∈ parameters method /\ param_name param = name /\
       keepable_kind (param_kind param) = true /\
       (name ∉ default ∅ excluded_fields) /\
       ty = default Any (type_hints method !! name)) /\
  map fst (kept_annotations PyType Any method excluded_fields) =
    filter (fun name => name ∉ default ∅ excluded_fields)
      (map param_name
         (filter (fun param => keepable_kind (param_kind param) = true)
            (parameters method))) /\
  (NoDup (map param_name (parameters method)) ->
   NoDup (map fst (kept_annotations PyType Any method excluded_fields))) /\
  (forall other_name,
     exists body,
       (create_typeddict_for_method PyType Any get_type_string method
          class_name excluded_fields).1 =
         "class " +:+ class_name +:+ "(TypedDict, total=False):"
         +:+ newline +:+ body /\
       (create_typeddict_for_method PyType Any get_type_string method
          other_name excluded_fields).1 =
         "class " +:+ other_name +:+ "(TypedDict, total=False):"
         +:+ newline +:+ body /\
       (create_typeddict_for_method PyType Any get_type_string method
          other_name excluded_fields).2 =
       (create_typeddict_for_method PyType Any get_type_string method
          class_name excluded_fields).2).
Proof.
  assert (Hnames :
    map fst (kept_annotations PyType Any method excluded_fields) =
    filter (fun name => name ∉ default ∅ excluded_fields)
      (map param_name
         (filter (fun param => keepable_kind (param_kind param) = true)
            (parameters method)))).
  { unfold kept_annotations.
    induction (parameters method) as [|param params IH]; [reflexivity |].
    cbn [omap list_omap]. rewrite filter_cons.
    destruct (keepable_kind (param_kind param)) eqn:Hkind.
    - rewrite decide_True by reflexivity. cbn [map]. rewrite filter_cons.
      destruct (bool_decide_reflect
                  (param_name param ∈ default ∅ excluded_fields))
        as [Hex | Hex].
      + rewrite decide_False by (intros Hnot; now apply Hnot). exact IH.
      + rewrite decide_True by exact Hex. cbn [map fst]. now rewrite IH.
    - rewrite decide_False by discriminate. exact IH. }
  split; [apply create_typeddict_for_method_code |].
  split; [| split; [exact Hnames | split]].
  - intros name ty. unfold kept_annotations. rewrite list_elem_of_omap.
    split.
    + intros (param & Hin & Hkeep). exists param.
      destruct (keepable_kind (param_kind param)); [| discriminate].
      destruct (bool_decide_reflect
                  (param_name param ∈ default ∅ excluded_fields))
        as [Hex | Hex]; [discriminate |].
      injection Hkeep as <- <-. now repeat split.
    + intros (param & Hin & <- & Hkind & Hex & ->). exists param.
      split; [exact Hin |]. rewrite Hkind.
      now rewrite bool_decide_eq_false_2.
  - intros Hdistinct. rewrite Hnames.
    apply NoDup_filter. clear Hnames. revert Hdistinct.
    induction (parameters method) as [|param params IH]; [constructor |].
    cbn [map]. rewrite NoDup_cons. intros [Hfresh Hrest].
    rewrite filter_cons. destruct (decide _); [| now apply IH].
    cbn [map]. apply NoDup_cons. split; [| now apply IH].
    intros Hin. apply Hfresh. apply list_elem_of_fmap in Hin as (p & -> & Hp).
    apply list_elem_of_fmap. exists p. split; [reflexivity |].
    now apply list_elem_of_filter in Hp as [_ Hp].
  - intros other_name.
    exists (field_lines PyType get_type_string
              (kept_annotations PyType Any method excluded_fields)).
    rewrite !create_typeddict_for_method_code. now repeat split.
Qed.

End TypedDictGeneratorProperties.

(** * Examples: the properties on concrete inputs *)

(** C1 on [sample_blocks]: the merged stream is the equivalent
    completion, and both paths give the same turn. *)
Lemma streamed_turn_equals_value_turn_witness :
  equivalent_completion json_loads_subset sample_skeleton sample_blocks
    sample_end = Some sample_completion /\
  merge_all json_loads_subset None
    (stream_events sample_skeleton sample_blocks sample_end)
    = Ok (Some sample_completion) /\
  stream_then_turn json_loads_subset
    (stream_events sample_skeleton sample_blocks sample_end) false
    = value_turn sample_completion false.
Proof.
  assert (Heq :
    equivalent_completion json_loads_subset sample_skeleton sample_blocks
      sample_end = Some sample_completion)
    by (vm_compute; reflexivity).
  split; [exact Heq |].
  apply (streamed_turn_equals_value_turn json_loads_subset sample_skeleton
           sample_blocks sample_end sample_completion false);
    [vm_compute; reflexivity | reflexivity | exact Heq].
Defined.

(** C3 on the spec's example: input [{"data": {"x": 1}}] gives
    [ContentJson({"x": 1})]; input [{}] raises. *)
Lemma extraction_tool_use_canonicalization_witness :
  _as_turn
    (extraction_completion (PyDict {[ "data" := PyDict {[ "x" := PyInt 1 ]} ]}))
    true =
  Ok {| role := "assistant";
        contents := [ ContentText "Here it is.";
                      ContentJson (PyDict {[ "x" := PyInt 1 ]}) ];
        json := Some (extraction_completion
                        (PyDict {[ "data" := PyDict {[ "x" := PyInt 1 ]} ]}));
        tokens := Some (20%Z, 9%Z) |} /\
  _as_turn (extraction_completion (PyDict ∅)) true =
  Raise (ValueError "Expected data extraction tool to return a 'data' field.")
  /\
  _as_turn (extraction_completion (PyStr "{}")) true =
  Raise (ValueError "Expected data extraction tool to return a dictionary.").
Proof.
  split; [| split].
  - apply (proj1 (extraction_tool_use_canonicalization
                    (extraction_completion
                       (PyDict {[ "data" := PyDict {[ "x" := PyInt 1 ]} ]}))
                    [TextBlock "Here it is."] [] "toolu_04" _ eq_refl)
             {[ "data" := PyDict {[ "x" := PyInt 1 ]} ]}
             (PyDict {[ "x" := PyInt 1 ]})
             [ContentText "Here it is."] []);
      vm_compute; reflexivity.
  - apply (proj2 (proj2 (proj2 (extraction_tool_use_canonicalization
                    (extraction_completion (PyDict ∅))
                    [TextBlock "Here it is."] [] "toolu_04" _ eq_refl)))
             [ContentText "Here it is."] ∅);
      vm_compute; reflexivity.
  - apply (proj1 (proj2 (proj2 (extraction_tool_use_canonicalization
                    (extraction_completion (PyStr "{}"))
                    [TextBlock "Here it is."] [] "toolu_04" _ eq_refl)))
             [ContentText "Here it is."]);
      vm_compute; reflexivity.
Defined.

(** C9 on a completion that carries an image and a tool result between
    its text and tool call. *)
Lemma as_turn_emits_text_and_tool_use_only_witness :
  as_turn_contents false
    ([TextBlock "a"] ++
     ToolResultBlock "toolu_06" (PyStr "sunny") false ::
     [ToolUseBlock "toolu_07" "now" (PyDict ∅)]) =
  as_turn_contents false
    ([TextBlock "a"] ++ [ToolUseBlock "toolu_07" "now" (PyDict ∅)]) /\
  role {| role := "assistant";
          contents := [ ContentText "Here it is.";
                        ContentToolRequest "toolu_04" "_structured_tool_call"
                          (PyDict ∅) ];
          json := Some (extraction_completion (PyDict ∅));
          tokens := Some (20%Z, 9%Z) |} = "assistant".
Proof.
  split.
  - apply (proj2 (as_turn_emits_text_and_tool_use_only sample_skeleton false)
             [TextBlock "a"]
             (ToolResultBlock "toolu_06" (PyStr "sunny") false)
             [ToolUseBlock "toolu_07" "now" (PyDict ∅)]);
      discriminate.
  - apply (proj1 (as_turn_emits_text_and_tool_use_only
                    (extraction_completion (PyDict ∅)) false)).
    reflexivity.
Defined.

(** C10 on a failed and on a successful tool result. *)
Lemma tool_result_block_is_error_witness :
  (exists content is_error,
     _as_content_block sample_get_final_value
       (ContentToolResult "toolu_06" PyNone (Some "timeout")) =
       Ok (ToolResultBlock "toolu_06" content is_error) /\
     block_type (ToolResultBlock "toolu_06" content is_error) = "tool_result" /\
     content = sample_get_final_value
                 (ContentToolResult "toolu_06" PyNone (Some "timeout")) /\
     (is_error = true <-> is_Some (Some "timeout")) /\
     (Some "timeout" = None -> is_error = false)) /\
  _as_content_block sample_get_final_value
    (ContentToolResult "toolu_06" (PyStr "sunny") None) =
  Ok (ToolResultBlock "toolu_06" (PyStr "sunny") false).
Proof.
  split.
  - exact (tool_result_block_is_error sample_get_final_value
             "toolu_06" PyNone (Some "timeout")).
  - reflexivity.
Defined.



(** C7, as stated, fails on a system turn that is not the first: it is
    skipped, and the mapping goes on without an error. *)
Lemma non_leading_system_turn_is_skipped :
  _as_message_params sample_get_final_value
    [user_turn "hi"; system_turn "be terse"; assistant_turn "hello"] =
  Ok [ {| mp_role := "user"; mp_content := [TextBlock "hi"] |};
       {| mp_role := "assistant"; mp_content := [TextBlock "hello"] |} ].
Proof. reflexivity. Qed.

(** C7 (amended) on a user turn, a system turn and a tool turn, each after
    a first user turn. *)
Lemma message_params_by_role_witness :
  _as_message_params sample_get_final_value
    ([user_turn "hi"] ++ user_turn "more" :: [assistant_turn "hello"]) =
  (rest <- _as_message_params sample_get_final_value
             [assistant_turn "hello"] ;;
   Ok ([ {| mp_role := "user"; mp_content := [TextBlock "hi"] |} ] ++
       {| mp_role := "user"; mp_content := [TextBlock "more"] |} :: rest)) /\
  _as_message_params sample_get_final_value
    ([user_turn "hi"] ++ system_turn "be terse" :: [assistant_turn "hello"]) =
  _as_message_params sample_get_final_value
    ([user_turn "hi"] ++ [assistant_turn "hello"]) /\
  _as_message_params sample_get_final_value
    ([user_turn "hi"] ++ tool_turn "42" :: [assistant_turn "hello"]) =
  Raise (ValueError "Unknown role tool").
Proof.
  split; [| split].
  - apply (proj1 (message_params_by_role sample_get_final_value
                    [user_turn "hi"] [assistant_turn "hello"]
                    (user_turn "more") _ eq_refl));
      [left; reflexivity | reflexivity].
  - apply (proj1 (proj2 (message_params_by_role sample_get_final_value
                    [user_turn "hi"] [assistant_turn "hello"]
                    (system_turn "be terse") _ eq_refl))).
    reflexivity.
  - apply (proj2 (proj2 (message_params_by_role sample_get_final_value
                    [user_turn "hi"] [assistant_turn "hello"]
                    (tool_turn "42") _ eq_refl)));
      discriminate.
Defined.

(** C8 on an empty input string, a valid one and a malformed one. *)
Lemma content_block_stop_parses_tool_input_witness :
  stream_merge_chunks json_loads_subset
    (Some (accumulator_with_input (PyStr EmptyString)))
    (ContentBlockStopEvent 1) =
  Ok (Some (accumulator_with_input (PyDict ∅))) /\
  stream_merge_chunks json_loads_subset
    (Some (accumulator_with_input (PyStr "[1, 2]")))
    (ContentBlockStopEvent 1) =
  Ok (Some (accumulator_with_input (PyList [PyInt 1; PyInt 2]))) /\
  stream_merge_chunks json_loads_subset
    (Some (accumulator_with_input (PyStr "{")))
    (ContentBlockStopEvent 1) =
  Raise (ValueError "Invalid JSON input: Expecting value") /\
  stream_merge_chunks json_loads_subset
    (Some (accumulator_with_input (PyDict ∅)))
    (ContentBlockStopEvent 0) =
  Ok (Some (accumulator_with_input (PyDict ∅))).
Proof.
  split; [| split; [| split]].
  - apply (proj1 (proj1 (content_block_stop_parses_tool_input
                    json_loads_subset
                    (accumulator_with_input (PyStr EmptyString)) 1 _
                    eq_refl eq_refl) "toolu_05" "now" EmptyString eq_refl)).
    reflexivity.
  - apply (proj1 (proj2 (proj1 (content_block_stop_parses_tool_input
                    json_loads_subset
                    (accumulator_with_input (PyStr "[1, 2]")) 1 _
                    eq_refl eq_refl) "toolu_05" "now" "[1, 2]" eq_refl)));
      [discriminate | vm_compute; reflexivity].
  - apply (proj1 (proj2 (proj2 (proj1 (content_block_stop_parses_tool_input
                    json_loads_subset
                    (accumulator_with_input (PyStr "{")) 1 _
                    eq_refl eq_refl) "toolu_05" "now" "{" eq_refl))));
      [discriminate | vm_compute; reflexivity].
  - apply (proj2 (content_block_stop_parses_tool_input
                    json_loads_subset
                    (accumulator_with_input (PyDict ∅)) 0 _
                    eq_refl eq_refl)).
    left. discriminate.
Defined.

(** C4, as stated, fails when the caller's overrides hold a [stream]
    entry: the warning is emitted and the request still carries
    [stream = True]. *)
Lemma stream_override_survives_structured_extraction :
  _chat_perform_args sample_get_final_value pyval (fun schema => schema)
    sample_Turn_text sample_provider true [user_turn "2+2?"] []
    (Some (PyDict ∅)) (Some {[ "stream" := ArgBool true ]})
  = ([structured_warning],
     Ok {[ "stream" := ArgBool true;
           "messages" := ArgMessages [sample_question];
           "model" := ArgStr "claude-3-5-sonnet-latest";
           "max_tokens" := ArgInt 4096;
           "tools" := ArgTools [extraction_tool_param (PyDict ∅)];
           "tool_choice" := ArgToolChoice "tool" "_structured_tool_call" ]}).
Proof. vm_compute. reflexivity. Qed.

(** C4 (amended) with no override: one warning, no streaming, the forced
    choice of the pseudo-tool. *)
Lemma structured_extraction_disables_streaming_witness :
  _chat_perform_args sample_get_final_value pyval (fun schema => schema)
    sample_Turn_text sample_provider true [user_turn "2+2?"] []
    (Some (PyDict ∅)) None
  = ([structured_warning], Ok (sample_extraction_request false)) /\
  sample_extraction_request false !! "tool_choice"
    = Some (ArgToolChoice "tool" "_structured_tool_call") /\
  sample_extraction_request false !! "stream" = Some (ArgBool false).
Proof.
  assert (Hrun :
    _chat_perform_args sample_get_final_value pyval (fun schema => schema)
      sample_Turn_text sample_provider true [user_turn "2+2?"] []
      (Some (PyDict ∅)) None
    = ([structured_warning], Ok (sample_extraction_request false)))
    by (vm_compute; reflexivity).
  split; [exact Hrun |].
  pose proof (structured_extraction_disables_streaming
                sample_get_final_value pyval (fun schema => schema)
                sample_Turn_text sample_provider [user_turn "2+2?"] []
                (PyDict ∅) None _ _ Hrun)
    as (_ & Hchoice & Hstream & _).
  split; [exact Hchoice |].
  apply Hstream. reflexivity.
Defined.

(** C5 on the spec's example: a system turn [be terse], then a user turn. *)
Lemma leading_system_turn_goes_to_system_field_witness :
  _chat_perform_args sample_get_final_value pyval (fun schema => schema)
    sample_Turn_text sample_provider false
    [system_turn "be terse"; user_turn "hi"] [] None None
  = ([], Ok sample_terse_request) /\
  sample_terse_request !! "messages" =
    Some (ArgMessages
            [ {| mp_role := "user"; mp_content := [TextBlock "hi"] |} ]) /\
  sample_terse_request !! "system" = Some (ArgStr "be terse").
Proof.
  assert (Hrun :
    _chat_perform_args sample_get_final_value pyval (fun schema => schema)
      sample_Turn_text sample_provider false
      [system_turn "be terse"; user_turn "hi"] [] None None
    = ([], Ok sample_terse_request))
    by (vm_compute; reflexivity).
  split; [exact Hrun |].
  pose proof (leading_system_turn_goes_to_system_field
                sample_get_final_value pyval (fun schema => schema)
                sample_Turn_text sample_provider false
                (system_turn "be terse") [user_turn "hi"] [] None None _ _
                eq_refl Hrun)
    as ((msgs & _ & Hrest & _ & Hmessages & _) & Hsystem & _).
  split.
  - rewrite (Hmessages eq_refl). injection Hrest as <-. reflexivity.
  - exact (Hsystem eq_refl).
Defined.

(** C6 on a request with a data model whose overrides set [model],
    [system] and [tool_choice]. *)
Lemma overrides_win_except_tool_choice_witness :
  _chat_perform_args sample_get_final_value pyval (fun schema => schema)
    sample_Turn_text sample_provider false
    [system_turn "be terse"; user_turn "hi"] [] (Some (PyDict ∅))
    (Some sample_overrides)
  = ([], Ok sample_overridden_request) /\
  sample_overridden_request !! "model"
    = Some (ArgStr "claude-3-opus-latest") /\
  sample_overridden_request !! "system" = Some (ArgStr "be verbose") /\
  sample_overridden_request !! "tool_choice"
    = Some (ArgToolChoice "tool" "_structured_tool_call").
Proof.
  assert (Hrun :
    _chat_perform_args sample_get_final_value pyval (fun schema => schema)
      sample_Turn_text sample_provider false
      [system_turn "be terse"; user_turn "hi"] [] (Some (PyDict ∅))
      (Some sample_overrides)
    = ([], Ok sample_overridden_request))
    by (vm_compute; reflexivity).
  split; [exact Hrun |].
  pose proof (overrides_win_except_tool_choice
                sample_get_final_value pyval (fun schema => schema)
                sample_Turn_text sample_provider false
                [system_turn "be terse"; user_turn "hi"] [] (Some (PyDict ∅))
                (Some sample_overrides) _ _ Hrun)
    as (Hwin & _ & Hforced).
  split; [| split].
  - apply Hwin; [vm_compute; reflexivity | discriminate].
  - apply Hwin; [vm_compute; reflexivity | discriminate].
  - apply (Hforced (PyDict ∅)). reflexivity.
Defined.

(** ** Further examples *)

(** X1 on a partial-JSON delta merged into a tool call. *)
Lemma merge_keeps_message_and_block_types_witness :
  msg_id (sample_accumulator "Looking." (PyStr "{}")) = "msg_04" /\
  map block_type (content (sample_accumulator "Looking." (PyStr "{}"))) =
    map block_type (content (sample_accumulator "Looking." (PyStr "{"))) ++ [].
Proof.
  destruct (merge_keeps_message_and_block_types json_loads_subset
              (sample_accumulator "Looking." (PyStr "{"))
              (sample_accumulator "Looking." (PyStr "{}"))
              (ContentBlockDeltaEvent 1 (InputJSONDelta "}"))
              eq_refl eq_refl) as (Hid & _ & _ & _ & Htypes).
  split; [exact Hid | exact Htypes].
Defined.

(** X2 on a text delta aimed at a tool call, and one out of range. *)
Lemma delta_merges_iff_it_fits_witness :
  (exists attr,
     stream_merge_chunks json_loads_subset
       (Some (sample_accumulator "Looking." (PyDict ∅)))
       (ContentBlockDeltaEvent 1 (TextDelta "x"))
     = Raise (AttributeError attr)) /\
  stream_merge_chunks json_loads_subset
    (Some (sample_accumulator "Looking." (PyDict ∅)))
    (ContentBlockDeltaEvent 2 (TextDelta "x"))
  = Raise IndexError.
Proof.
  split.
  - apply (proj2 (proj2 (delta_merges_iff_it_fits json_loads_subset
                    (sample_accumulator "Looking." (PyDict ∅)) 1
                    (TextDelta "x")))
             (ToolUseBlock "toolu_08" "search" (PyDict ∅)));
      reflexivity.
  - apply (proj1 (proj2 (delta_merges_iff_it_fits json_loads_subset
                    (sample_accumulator "Looking." (PyDict ∅)) 2
                    (TextDelta "x")))).
    simpl. lia.
Defined.

(** X3 on the sample stream, and on the sample stream without its
    [message_start]. *)
Lemma merged_stream_has_message_start_witness :
  (exists pre msg post,
     stream_events sample_skeleton sample_blocks sample_end =
       pre ++ MessageStartEvent msg :: post /\
     Forall (fun c => is_message_stop c = true) pre) /\
  (exists attr,
     merge_all json_loads_subset None
       (MessageStopEvent :: blocks_events 0 sample_blocks)
     = Raise (AttributeError attr)).
Proof.
  split.
  - apply (proj1 (merged_stream_has_message_start json_loads_subset
                    (stream_events sample_skeleton sample_blocks sample_end))
             sample_completion).
    vm_compute. reflexivity.
  - apply (proj2 (merged_stream_has_message_start json_loads_subset
                    (MessageStopEvent :: blocks_events 0 sample_blocks))
             [MessageStopEvent]
             (ContentBlockStartEvent 0 (TextBlock ""))
             (tl (blocks_events 0 sample_blocks)));
      [reflexivity | repeat constructor | reflexivity | reflexivity].
Defined.

(** X4 on a text delta and a partial-JSON delta for two blocks. *)
Lemma deltas_of_distinct_blocks_commute_witness :
  (a <- stream_merge_chunks json_loads_subset
          (Some (sample_accumulator "Looking" (PyDict ∅)))
          (ContentBlockDeltaEvent 1 (InputJSONDelta "{")) ;;
   stream_merge_chunks json_loads_subset a
     (ContentBlockDeltaEvent 0 (TextDelta " up")))
  = Ok (Some (sample_accumulator "Looking up" (PyStr "{"))).
Proof.
  apply (deltas_of_distinct_blocks_commute json_loads_subset
           (sample_accumulator "Looking" (PyDict ∅)) 0 1
           (TextDelta " up") (InputJSONDelta "{"));
    [discriminate | reflexivity].
Defined.

(** X5 on a tool call that starts with a stale input and streams the
    text of a list. *)
Lemma tool_input_comes_from_the_deltas_witness :
  merge_all json_loads_subset
    (Some (with_content sample_skeleton
             ([TextBlock "a"] ++
              [ToolUseBlock "toolu_08" "search" (PyList [PyInt 7])])))
    (map (ContentBlockDeltaEvent (length [TextBlock "a"]))
       (map InputJSONDelta ["[1,"; " 2]"]) ++
     [ContentBlockStopEvent (length [TextBlock "a"])]) =
  Ok (Some (with_content sample_skeleton
              ([TextBlock "a"] ++
               [ToolUseBlock "toolu_08" "search"
                  (PyList [PyInt 1; PyInt 2])]))).
Proof.
  rewrite (proj2 (tool_input_comes_from_the_deltas json_loads_subset
                    sample_skeleton [TextBlock "a"] "toolu_08" "search"
                    (PyList [PyInt 7]) "[1," [" 2]"] eq_refl)).
  vm_compute. reflexivity.
Defined.

(** X6 on the sample stream: the text shown is the text of the turn. *)
Lemma streamed_text_is_the_turn_text_witness :
  join (omap stream_text
          (stream_events sample_skeleton sample_blocks sample_end)) =
  join (omap content_text (contents sample_turn)).
Proof.
  apply (streamed_text_is_the_turn_text json_loads_subset sample_skeleton
           sample_blocks sample_end sample_completion false sample_turn);
    [vm_compute; reflexivity | reflexivity | vm_compute; reflexivity
    | vm_compute; reflexivity].
Defined.

(** X7 on the sample stream. *)
Lemma streamed_turn_tokens_witness :
  tokens sample_turn = Some (12%Z, 40%Z) /\
  stop_reason sample_completion = Some "tool_use" /\
  json sample_turn = Some sample_completion /\
  role sample_turn = "assistant".
Proof.
  apply (streamed_turn_tokens json_loads_subset sample_skeleton
           sample_blocks sample_end sample_completion false sample_turn);
    [vm_compute; reflexivity | reflexivity | vm_compute; reflexivity
    | vm_compute; reflexivity].
Defined.

(** X8 on an extraction call without [data], read with and without a
    data model. *)
Lemma as_turn_fails_only_on_failed_extraction_witness :
  (exists msg,
     _as_turn (extraction_completion (PyDict ∅)) true
       = Raise (ValueError msg)) /\
  _as_turn (extraction_completion (PyDict ∅)) false =
  Ok {| role := "assistant";
        contents :=
          omap (canonical_content false)
            (content (extraction_completion (PyDict ∅)));
        json := Some (extraction_completion (PyDict ∅));
        tokens := Some (20%Z, 9%Z) |}.
Proof.
  split.
  - apply (proj1 (proj2 (as_turn_fails_only_on_failed_extraction
                           (extraction_completion (PyDict ∅)) true))).
    reflexivity.
  - apply (proj1 (as_turn_fails_only_on_failed_extraction
                    (extraction_completion (PyDict ∅)) false)).
    reflexivity.
Defined.

(** X9 on [sample_contents] and on a remote image. *)
Lemma content_blocks_fail_only_on_remote_image_witness :
  (exists blocks,
     comprehension (_as_content_block sample_get_final_value) sample_contents
       = Ok blocks /\
     map block_type blocks = map vendor_type sample_contents) /\
  (exists msg,
     comprehension (_as_content_block sample_get_final_value)
       [ContentText "look"; ContentImageRemote "https://example.com/a.png"]
     = Raise (NotImplementedError msg)).
Proof.
  split.
  - apply (proj1 (content_blocks_fail_only_on_remote_image
                    sample_get_final_value sample_contents)).
    reflexivity.
  - apply (proj2 (content_blocks_fail_only_on_remote_image
                    sample_get_final_value
                    [ContentText "look";
                     ContentImageRemote "https://example.com/a.png"])).
    reflexivity.
Defined.

(** X10 on a system turn between a user and an assistant turn. *)
Lemma message_params_follow_the_turns_witness :
  map mp_role
    [ {| mp_role := "user"; mp_content := [TextBlock "hi"] |};
      {| mp_role := "assistant"; mp_content := [TextBlock "hello"] |} ] =
  map role
    (filter (fun t => is_system t = false)
       [user_turn "hi"; system_turn "be terse"; assistant_turn "hello"]).
Proof.
  apply (proj2 (message_params_follow_the_turns sample_get_final_value
                  [user_turn "hi"; system_turn "be terse";
                   assistant_turn "hello"])
           [ {| mp_role := "user"; mp_content := [TextBlock "hi"] |};
             {| mp_role := "assistant";
                mp_content := [TextBlock "hello"] |} ]).
  reflexivity.
Defined.

(** X11 on a tool whose parameters gain a [required] list. *)
Lemma tool_schema_reads_only_properties_witness :
  _anthropic_tool_schema
    (with_parameters sample_function
       (<["required" := PyList [PyStr "city"]]> sample_parameters)) =
  _anthropic_tool_schema (with_parameters sample_function sample_parameters).
Proof.
  apply (proj1 (tool_schema_reads_only_properties sample_function)).
  discriminate.
Defined.

(** X13 on a turn with an unknown role, with a data model and [stream]
    set: the warning is there, the request is not. *)
Lemma warning_precedes_message_failure_witness :
  _chat_perform_args sample_get_final_value pyval (fun schema => schema)
    sample_Turn_text sample_provider true [tool_turn "42"] []
    (Some (PyDict ∅)) None
  = ([structured_warning], Raise (ValueError "Unknown role tool")).
Proof.
  apply (proj1 (warning_precedes_message_failure sample_get_final_value
                  pyval (fun schema => schema) sample_Turn_text
                  sample_provider true [tool_turn "42"] [] (Some (PyDict ∅))
                  None (ValueError "Unknown role tool"))
           (PyDict ∅) []);
    reflexivity.
Defined.


(** X15 on the same request. *)
Lemma request_keys_witness :
  dom sample_terse_request =
    dom (∅ : gmap string ArgVal) ∪ derived_keys ∪ ∅ ∪ {[ "system" ]}.
Proof.
  assert (Hrun :
    _chat_perform_args sample_get_final_value pyval (fun schema => schema)
      sample_Turn_text sample_provider false
      [system_turn "be terse"; user_turn "hi"] [] None None
    = ([], Ok sample_terse_request))
    by (vm_compute; reflexivity).
  exact (request_keys sample_get_final_value pyval (fun schema => schema)
           sample_Turn_text sample_provider false
           [system_turn "be terse"; user_turn "hi"] [] None None _ _ Hrun).
Defined.


(** X17 on an [api_key] given both by name and in [kwargs], and on
    Bedrock arguments of which [kwargs] overrides the region. *)
Lemma client_args_overrides_witness :
  anthropic_client_args (Some "sk-by-name")
    (Some {[ "api_key" := PyStr "sk-in-kwargs" ]}) !! "api_key"
  = Some (PyStr "sk-in-kwargs") /\
  anthropic_client_args None None !! "api_key" = Some PyNone /\
  bedrock_client_args (Some "secret") (Some "access") (Some "us-east-1")
    None None (Some "https://bedrock.example")
    (Some {[ "aws_region" := PyStr "eu-west-1" ]}) !! "aws_region"
  = Some (PyStr "eu-west-1") /\
  bedrock_client_args (Some "secret") (Some "access") (Some "us-east-1")
    None None (Some "https://bedrock.example")
    (Some {[ "aws_region" := PyStr "eu-west-1" ]}) !! "aws_access_key"
  = Some (PyStr "access") /\
  bedrock_client_args (Some "secret") (Some "access") (Some "us-east-1")
    None None (Some "https://bedrock.example")
    (Some {[ "aws_region" := PyStr "eu-west-1" ]}) !! "base_url"
  = Some (PyStr "https://bedrock.example").
Proof.
  split; [| split; [| split; [| split]]].
  - apply (proj1 (client_args_overrides (Some "sk-by-name") None None None
                    None None None
                    (Some {[ "api_key" := PyStr "sk-in-kwargs" ]}))
             "api_key" (PyStr "sk-in-kwargs")).
    vm_compute. reflexivity.
  - apply (proj1 (proj2 (client_args_overrides None None None None
                           None None None None))).
    reflexivity.
  - apply (proj1 (client_args_overrides None (Some "secret") (Some "access")
                    (Some "us-east-1") None None
                    (Some "https://bedrock.example")
                    (Some {[ "aws_region" := PyStr "eu-west-1" ]}))
             "aws_region" (PyStr "eu-west-1")).
    vm_compute. reflexivity.
  - destruct (client_args_overrides None (Some "secret") (Some "access")
                (Some "us-east-1") None None
                (Some "https://bedrock.example")
                (Some {[ "aws_region" := PyStr "eu-west-1" ]}))
      as (_ & _ & _ & _ & _ & Haccess & _).
    apply Haccess. vm_compute. reflexivity.
  - destruct (client_args_overrides None (Some "secret") (Some "access")
                (Some "us-east-1") None None
                (Some "https://bedrock.example")
                (Some {[ "aws_region" := PyStr "eu-west-1" ]}))
      as (_ & _ & _ & _ & _ & _ & _ & _ & _ & Hurl).
    apply Hurl. vm_compute. reflexivity.
Defined.

(** X18 on the three overloads of a [create] method, of which the one
    annotated [bool] has no stream flag, and on that overload alone. *)
Lemma overloads_need_two_stream_flags_witness :
  is_ok (create_typeddicts_for_overloaded_method string "Any"
           sample_get_type_string "create"
           [ create_overload "Union[Literal[False], anthropic.NotGiven]";
             create_overload "Literal[True]";
             create_overload "bool" ]
           "SubmitInputArgs" (Some {[ "self" ]})) = true /\
  create_typeddicts_for_overloaded_method string "Any"
    sample_get_type_string "create" [create_overload "bool"]
    "SubmitInputArgs" None =
  Raise (ValueError
    ("Expected to find 2 stream=True/False overloads for method "
     +:+ "create" +:+ " but found " +:+ "0")).
Proof.
  split.
  - rewrite (proj1 (overloads_need_two_stream_flags string "Any"
                      sample_get_type_string "create"
                      [ create_overload
                          "Union[Literal[False], anthropic.NotGiven]";
                        create_overload "Literal[True]";
                        create_overload "bool" ]
                      "SubmitInputArgs" (Some {[ "self" ]}))).
    reflexivity.
  - apply (proj2 (proj2 (overloads_need_two_stream_flags string "Any"
                           sample_get_type_string "create"
                           [create_overload "bool"] "SubmitInputArgs" None)));
      [discriminate | vm_compute; discriminate].
Defined.

(** X19 with the streaming overload first: both classes are named
    [SubmitInputArgsStream]. *)
Lemma overload_class_names_accumulate_witness :
  create_typeddicts_for_overloaded_method string "Any"
    sample_get_type_string "create"
    [ create_overload "Literal[True]"; create_overload "bool";
      create_overload "Literal[False]" ]
    "SubmitInputArgs" (Some {[ "self" ]}) =
  Ok ((create_typeddict_for_method string "Any" sample_get_type_string
         (create_overload "Literal[True]") "SubmitInputArgsStream"
         (Some {[ "self" ]})).1
      +:+ (newline +:+ newline) +:+
      (create_typeddict_for_method string "Any" sample_get_type_string
         (create_overload "Literal[False]") "SubmitInputArgsStream"
         (Some {[ "self" ]})).1,
      (create_typeddict_for_method string "Any" sample_get_type_string
         (create_overload "Literal[True]") "SubmitInputArgsStream"
         (Some {[ "self" ]})).2 ∪
      (create_typeddict_for_method string "Any" sample_get_type_string
         (create_overload "Literal[False]") "SubmitInputArgsStream"
         (Some {[ "self" ]})).2).
Proof.
  apply (overload_class_names_accumulate string "Any" sample_get_type_string
           "create"
           [ create_overload "Literal[True]"; create_overload "bool";
             create_overload "Literal[False]" ]
           "SubmitInputArgs" (Some {[ "self" ]})
           (create_overload "Literal[True]") (create_overload "Literal[False]")
           true false).
  reflexivity.
Defined.

(** X20 on one overload: [self] is excluded, [kwargs] cannot be passed by
    keyword, and two fields remain, under either class name. *)
Lemma typeddict_lists_the_kept_parameters_witness :
  create_typeddict_for_method string "Any" sample_get_type_string
    (create_overload "Literal[True]") "SubmitInputArgsStream"
    (Some {[ "self" ]}) =
  ("class " +:+ "SubmitInputArgsStream" +:+ "(TypedDict, total=False):"
   +:+ newline
   +:+ ("    max_tokens: int" +:+ newline)
   +:+ ("    stream: Literal[True]" +:+ newline),
   ∅) /\
  NoDup (map fst (kept_annotations string "Any"
                    (create_overload "Literal[True]") (Some {[ "self" ]}))).
Proof.
  destruct (typeddict_lists_the_kept_parameters string "Any"
              sample_get_type_string (create_overload "Literal[True]")
              "SubmitInputArgsStream" (Some {[ "self" ]}))
    as (Hcode & _ & _ & Hdistinct & _).
  split.
  - rewrite Hcode. vm_compute. reflexivity.
  - apply Hdistinct. vm_compute. repeat constructor; set_solver.
Defined.
